(** * OKX trade simulator: order book, cost models, tick pipeline, reconnect loop

    A shallow embedding of the Python sources

      - [src/data/order_book.py]   (the book used by the simulation engine)
      - [src/data/orderbook.py]    (the second, stand-alone book)
      - [src/models/fee_model.py], [maker_taker_model.py],
        [slippage_model.py], [market_impact_model.py]
      - [src/models/simulation_engine.py]
      - [src/websocket/connector.py]

    Numbers.  Python floats are modelled as exact rationals [Q]: rounding,
    infinities and NaN are outside the model, and every equation between
    numbers is stated with [==] ([Qeq]).  The builtin [float()], [numpy.exp]
    and [math.sqrt] are library code, not code of this repository: they are
    taken as interfaces ([FloatParser], [MathLib]) and every theorem holds
    for all their instances.  Concrete instances are given for evaluating
    the definitions on examples.

    Dynamic typing.  Values that reach the code from JSON or from caller
    dictionaries are modelled by [pyval] (None, booleans, numbers, strings
    and lists; dictionaries are [gmap]s with string keys and are not nested
    inside values); operations that Python would reject raise an exception
    of the kind Python raises, carried by [result].

    State.  Methods that mutate their object return the object as they
    leave it together with their outcome, so that what was assigned before
    an exception stays assigned.  Clock readings are inputs.

    Layout.  One module per source file with the names of the source, then
    the predicates of the statements, then the theorems: the claims C1 to
    C10 with their lemmas first, further properties of the same code (X1
    onwards) after them. *)

From stdpp Require Import base option list gmap strings sorting.
From Stdlib Require Import Ascii String QArith Qabs Qminmax Qround Lqa Lia Sorted.

Local Open Scope string_scope.
Local Open Scope Q_scope.

(** ** Exceptions and possibly-raising computations *)

Inductive exn : Type :=
| ValueError | TypeError | KeyError | IndexError
| AttributeError | ZeroDivisionError | CallbackError.

Inductive result (A : Type) : Type :=
| Ok (a : A)
| Raise (e : exn).
Arguments Ok {A} a.
Arguments Raise {A} e.

Definition rbind {A B : Type} (r : result A) (k : A -> result B) : result B :=
  match r with
  | Ok a => k a
  | Raise e => Raise e
  end.

#[global] Instance result_bind : MBind result :=
  fun A B k r => rbind r k.
#[global] Instance result_ret : MRet result := fun A a => Ok a.


(** ** Python values *)

#[warnings="-register-all"] Inductive pyval : Type :=
| VNone
| VBool (b : bool)
| VNum (q : Q)
| VStr (s : string)
| VList (l : list pyval).

(** The builtin [float] on strings: [Some q] when the token parses, [None]
    when Python raises [ValueError]. *)
Class FloatParser := float_of_str : string -> option Q.

(** [numpy.exp] and [math.sqrt]. *)
Class MathLib := { np_exp : Q -> Q; math_sqrt : Q -> Q }.

Definition py_float `{FloatParser} (v : pyval) : result Q :=
  match v with
  | VNone => Raise TypeError
  | VBool b => Ok (if b then 1 else 0)
  | VNum q => Ok q
  | VStr s => match float_of_str s with
              | Some q => Ok q
              | None => Raise ValueError
              end
  | VList _ => Raise TypeError
  end.

(** A number used in arithmetic: [bool] is a number in Python, everything
    else that is not a number makes the operation raise [TypeError]. *)
Definition as_num (v : pyval) : result Q :=
  match v with
  | VNum q => Ok q
  | VBool b => Ok (if b then 1 else 0)
  | _ => Raise TypeError
  end.

Fixpoint chars (s : string) : list pyval :=
  match s with
  | EmptyString => []
  | String c s' => VStr (String c EmptyString) :: chars s'
  end.

Definition py_iter (v : pyval) : result (list pyval) :=
  match v with
  | VList l => Ok l
  | VStr s => Ok (chars s)
  | _ => Raise TypeError
  end.

Definition py_len (v : pyval) : result nat :=
  match v with
  | VList l => Ok (List.length l)
  | VStr s => Ok (String.length s)
  | _ => Raise TypeError
  end.

Definition py_getitem (v : pyval) (i : nat) : result pyval :=
  match v with
  | VList l => match nth_error l i with
               | Some x => Ok x
               | None => Raise IndexError
               end
  | VStr s => match nth_error (chars s) i with
              | Some x => Ok x
              | None => Raise IndexError
              end
  | _ => Raise TypeError
  end.

Definition q_truthy (q : Q) : bool := negb (Qeq_bool q 0).

Definition py_truthy (v : pyval) : bool :=
  match v with
  | VNone => false
  | VBool b => b
  | VNum q => q_truthy q
  | VStr s => negb (String.eqb s EmptyString)
  | VList l => match l with [] => false | _ => true end
  end.

(** [d.get(key, default)] on a dictionary with string keys. *)
Definition dict_get (d : gmap string pyval) (key : string) (default : pyval) : pyval :=
  match d !! key with
  | Some v => v
  | None => default
  end.

Definition Qgtb (a b : Q) : bool := negb (Qle_bool a b).
Definition Qltb (a b : Q) : bool := negb (Qle_bool b a).

(** Python's [min(a, b)] returns [a] unless [b < a]; [max(a, b)] returns
    [a] unless [b > a]. *)
Definition py_min (a b : Q) : Q := if Qltb b a then b else a.
Definition py_max (a b : Q) : Q := if Qgtb b a then b else a.




(** ** A decimal instance of [float()] for examples

    Optional sign, digits, optional fraction; anything else is rejected. *)

Definition digit_of (c : ascii) : option Z :=
  let n := nat_of_ascii c in
  if ((48 <=? n)%nat && (n <=? 57)%nat)%bool then Some (Z.of_nat (n - 48)) else None.

Fixpoint scan_digits (s : string) (acc : Z) (count : nat) : Z * nat * string :=
  match s with
  | EmptyString => (acc, count, s)
  | String c s' =>
      match digit_of c with
      | Some d => scan_digits s' (10 * acc + d)%Z (S count)
      | None => (acc, count, s)
      end
  end.

Definition parse_unsigned (s : string) : option Q :=
  let '(i, ci, rest) := scan_digits s 0%Z 0%nat in
  match rest with
  | EmptyString => if (0 <? ci)%nat then Some (inject_Z i) else None
  | String "." frac =>
      let '(n, cn, rest') := scan_digits frac i ci in
      match rest' with
      | EmptyString =>
          if (0 <? cn)%nat
          then Some (if (cn - ci =? 0)%nat then inject_Z n
                     else Qred (n # Pos.pow 10 (Pos.of_nat (cn - ci))))
          else None
      | _ => None
      end
  | _ => None
  end.

Definition parse_decimal (s : string) : option Q :=
  match s with
  | String "-" s' => Qopp <$> parse_unsigned s'
  | String "+" s' => parse_unsigned s'
  | _ => parse_unsigned s
  end.

(** ** SortedDict with rational keys

    [sortedcontainers.SortedDict]: a dictionary whose iteration order is
    ascending key order.  Modelled as an association list kept sorted by
    [setitem]. *)

Module SortedDict.

Fixpoint setitem {V : Type} (k : Q) (v : V) (d : list (Q * V)) : list (Q * V) :=
  match d with
  | [] => [(k, v)]
  | (k', v') :: tl =>
      match k ?= k' with
      | Lt => (k, v) :: d
      | Eq => (k', v) :: tl
      | Gt => (k', v') :: setitem k v tl
      end
  end.

Definition keys {V : Type} (d : list (Q * V)) : list Q := map fst d.
Definition values {V : Type} (d : list (Q * V)) : list V := map snd d.

(** [peekitem(0)], [peekitem(-1)], [popitem(index=0)], [popitem(index=-1)];
    the callers guard the empty case. *)
Definition peek_first {V : Type} (d : list (Q * V)) : option (Q * V) := head d.
Definition peek_last {V : Type} (d : list (Q * V)) : option (Q * V) := last d.
Definition pop_first {V : Type} (d : list (Q * V)) : list (Q * V) := tail d.
Definition pop_last {V : Type} (d : list (Q * V)) : list (Q * V) := removelast d.

Fixpoint getitem {V : Type} (k : Q) (d : list (Q * V)) : option V :=
  match d with
  | [] => None
  | (k', v') :: tl => if Qeq_bool k k' then Some v' else getitem k tl
  end.

End SortedDict.

(** ** [src/data/order_book.py]: the book used by the simulation engine

    Both sides are [SortedDict]s keyed by price, so both iterate in
    ascending price order; the best bid is the last item of [bids], the
    best ask the first item of [asks]. *)

Module order_book.

Record OrderBook : Type := mkOrderBook {
  symbol : pyval;
  max_depth : nat;
  asks : list (Q * Q);
  bids : list (Q * Q);
  last_update_time : pyval;
  is_initialized : bool;
  mid_price : option Q
}.

(** [__init__] *)
Definition init (symbol : pyval) (max_depth : nat) : OrderBook :=
  {| symbol := symbol; max_depth := max_depth; asks := []; bids := [];
     last_update_time := VNum 0; is_initialized := false; mid_price := None |}.

Definition side_of (ob : OrderBook) (is_bid : bool) : list (Q * Q) :=
  if is_bid then bids ob else asks ob.

Definition set_side (ob : OrderBook) (is_bid : bool) (side : list (Q * Q)) : OrderBook :=
  if is_bid
  then {| symbol := symbol ob; max_depth := max_depth ob; asks := asks ob; bids := side;
          last_update_time := last_update_time ob; is_initialized := is_initialized ob;
          mid_price := mid_price ob |}
  else {| symbol := symbol ob; max_depth := max_depth ob; asks := side; bids := bids ob;
          last_update_time := last_update_time ob; is_initialized := is_initialized ob;
          mid_price := mid_price ob |}.

(** The [try] block of the loop body: both conversions, [ValueError] and
    [TypeError] being the exceptions the [except] clause names. *)
Definition parse_level `{FloatParser} (level : pyval) : result (Q * Q) :=
  p ← py_getitem level 0; price ← py_float p;
  q ← py_getitem level 1; quantity ← py_float q;
  mret (price, quantity).

(** One iteration of the [for level in levels] loop: the new side, or the
    exception that leaves the loop. *)
Definition apply_level `{FloatParser} (side : list (Q * Q)) (level : pyval)
  : result (list (Q * Q)) :=
  n ← py_len level;
  if (n <? 2)%nat then Ok side
  else match parse_level level with
       | Raise ValueError | Raise TypeError => Ok side
       | Raise e => Raise e
       | Ok (price, quantity) =>
           if Qle_bool quantity 0 then Ok side
           else Ok (SortedDict.setitem price quantity side)
       end.

(** The loop; the side is mutated in place, so what was stored before an
    exception stays stored. *)
Fixpoint update_levels `{FloatParser} (side : list (Q * Q)) (levels : list pyval)
  : list (Q * Q) * result unit :=
  match levels with
  | [] => (side, Ok tt)
  | level :: rest =>
      match apply_level side level with
      | Ok side' => update_levels side' rest
      | Raise e => (side, Raise e)
      end
  end.

(** [while len(side) > max_depth: side.popitem(...)]: the loop pops
    [len(side) - max_depth] times, the lowest bid or the highest ask. *)
Definition trim (is_bid : bool) (max_depth : nat) (side : list (Q * Q)) : list (Q * Q) :=
  Nat.iter (List.length side - max_depth)
           (if is_bid then SortedDict.pop_first else SortedDict.pop_last) side.

Definition _update_side `{FloatParser} (ob : OrderBook) (levels : pyval) (is_bid : bool)
  : OrderBook * result unit :=
  match py_iter levels with
  | Raise e => (set_side ob is_bid [], Raise e)
  | Ok ls =>
      match update_levels [] ls with
      | (side, Raise e) => (set_side ob is_bid side, Raise e)
      | (side, Ok _) => (set_side ob is_bid (trim is_bid (max_depth ob) side), Ok tt)
      end
  end.

Definition best_bid_item (ob : OrderBook) : option (Q * Q) := SortedDict.peek_last (bids ob).
Definition best_ask_item (ob : OrderBook) : option (Q * Q) := SortedDict.peek_first (asks ob).

Definition compute_mid (ob : OrderBook) : option Q :=
  match best_bid_item ob, best_ask_item ob with
  | Some (best_bid, _), Some (best_ask, _) =>
      if q_truthy best_bid && q_truthy best_ask
      then Some ((best_bid + best_ask) / 2) else None
  | _, _ => None
  end.

Definition _calculate_mid_price (ob : OrderBook) : OrderBook :=
  {| symbol := symbol ob; max_depth := max_depth ob; asks := asks ob; bids := bids ob;
     last_update_time := last_update_time ob; is_initialized := is_initialized ob;
     mid_price := compute_mid ob |}.

Definition finish_update (ob : OrderBook) (timestamp : pyval) : OrderBook :=
  let ob1 := _calculate_mid_price
               {| symbol := symbol ob; max_depth := max_depth ob; asks := asks ob;
                  bids := bids ob; last_update_time := timestamp;
                  is_initialized := is_initialized ob; mid_price := mid_price ob |} in
  {| symbol := symbol ob1; max_depth := max_depth ob1; asks := asks ob1; bids := bids ob1;
     last_update_time := last_update_time ob1; is_initialized := true;
     mid_price := mid_price ob1 |}.

(** [update]; [now] is the reading of [time.time()]. *)
Definition update `{FloatParser} (now : Q) (ob : OrderBook) (data : gmap string pyval)
  : OrderBook * result pyval :=
  let timestamp0 := dict_get data "timestamp" (VNum (now * 1000)) in
  let timestamp :=
    match timestamp0 with
    | VStr s => match float_of_str s with
                | Some t => VNum t
                | None => VNum (now * 1000)
                end
    | _ => timestamp0
    end in
  let asks := dict_get data "asks" (VList []) in
  let '(ob1, r1) := if py_truthy asks then _update_side ob asks false else (ob, Ok tt) in
  match r1 with
  | Raise e => (ob1, Raise e)
  | Ok _ =>
      let bids := dict_get data "bids" (VList []) in
      let '(ob2, r2) := if py_truthy bids then _update_side ob1 bids true else (ob1, Ok tt) in
      match r2 with
      | Raise e => (ob2, Raise e)
      | Ok _ => (finish_update ob2 timestamp, Ok timestamp)
      end
  end.

Definition empty_side (side : list (Q * Q)) : bool :=
  match side with [] => true | _ => false end.

(** [not self.is_initialized or not self.bids or not self.asks] *)
Definition unusable (ob : OrderBook) : bool :=
  negb (is_initialized ob) || empty_side (bids ob) || empty_side (asks ob).

Definition get_mid_price (ob : OrderBook) : Q :=
  if unusable ob then 0
  else match mid_price ob with
       | Some m => if q_truthy m then m else 0
       | None => 0
       end.

Definition get_spread (ob : OrderBook) : Q :=
  if unusable ob then 0
  else match best_bid_item ob, best_ask_item ob with
       | Some (best_bid, _), Some (best_ask, _) =>
           if Qeq_bool best_bid 0 || Qeq_bool best_ask 0 then 0 else best_ask - best_bid
       | _, _ => 0
       end.

(** [get_depth]: the first [price_levels] items of each side in iteration
    order. *)
Definition get_depth (ob : OrderBook) (price_levels : nat)
  : list (Q * Q) * list (Q * Q) :=
  (take price_levels (asks ob), take price_levels (bids ob)).

(** The walk of [_estimate_price_impact] over [items]. *)
Fixpoint walk_impact (items : list (Q * Q)) (remaining_size total_cost : Q) : Q * Q :=
  match items with
  | [] => (remaining_size, total_cost)
  | (price, qty) :: rest =>
      if Qle_bool remaining_size 0 then (remaining_size, total_cost)
      else let taken := py_min remaining_size qty in
           walk_impact rest (remaining_size - taken) (total_cost + taken * price)
  end.

(** The total cost the estimator divides by [size]: the walked cost plus
    the unfilled remainder at the last price of [items]; [None] stands for
    the [return 0.05] of an empty side. *)
Definition impact_total_cost (items : list (Q * Q)) (size : Q) : option Q :=
  let '(remaining_size, total_cost) := walk_impact items size 0 in
  if Qgtb remaining_size 0
  then match last items with
       | Some (last_price, _) => Some (total_cost + remaining_size * last_price)
       | None => None
       end
  else Some total_cost.

Definition _estimate_price_impact (ob : OrderBook) (size : Q) (is_buy : bool) : Q :=
  if unusable ob then 0
  else
    let mid :=
      match mid_price ob with
      | Some m => if q_truthy m then Some m else None
      | None => None
      end in
    let mid :=
      match mid with
      | Some m => Some m
      | None =>
          match best_bid_item ob, best_ask_item ob with
          | Some (bb, _), Some (ba, _) => Some ((bb + ba) / 2)
          | _, _ => None
          end
      end in
    match mid with
    | None => 0
    | Some m =>
        if negb (q_truthy m) then 0
        else
          let items := if is_buy then asks ob else rev (bids ob) in
          match impact_total_cost items size with
          | None => 5 # 100
          | Some total_cost =>
              (* [total_cost / size] raises ZeroDivisionError for size 0,
                 caught by [except Exception: return 0.0] *)
              if Qeq_bool size 0 then 0
              else Qabs (total_cost / size - m) / m
          end
    end.

Definition sum_qty (items : list (Q * Q)) : Q :=
  foldr (fun it acc => snd it + acc) 0 items.

(** [bid_items[-depth:]] and [ask_items[:depth]]. *)
Definition last_n {A : Type} (n : nat) (l : list A) : list A := drop (List.length l - n) l.

Definition depth_features (ob : OrderBook) (depth : nat) (name : string)
  (features : gmap string pyval) : gmap string pyval :=
  let bid_depth := sum_qty (if (depth <=? List.length (bids ob))%nat
                            then last_n depth (bids ob) else bids ob) in
  let ask_depth := sum_qty (if (depth <=? List.length (asks ob))%nat
                            then take depth (asks ob) else asks ob) in
  let imbalance := if Qgtb (bid_depth + ask_depth) 0
                   then (bid_depth - ask_depth) / (bid_depth + ask_depth) else 0 in
  <[ "depth_imbalance_" ++ name := VNum imbalance ]>
    (<[ "ask_depth_" ++ name := VNum ask_depth ]>
       (<[ "bid_depth_" ++ name := VNum bid_depth ]> features)).

Definition impact_features (ob : OrderBook) (size : Q) (name : string)
  (features : gmap string pyval) : gmap string pyval :=
  <[ "ask_impact_" ++ name := VNum (_estimate_price_impact ob size true) ]>
    (<[ "bid_impact_" ++ name := VNum (_estimate_price_impact ob size false) ]> features).

Definition get_order_book_features (ob : OrderBook) : gmap string pyval :=
  if unusable ob then ∅
  else match best_bid_item ob, best_ask_item ob with
       | Some (best_bid_price, _), Some (best_ask_price, _) =>
           let mid := (best_bid_price + best_ask_price) / 2 in
           (* the division by [features['mid_price']] raises for a zero
              mid price; [except Exception: return {}] *)
           if Qeq_bool mid 0 then ∅
           else
             let f0 : gmap string pyval :=
               <[ "spread_pct" := VNum ((best_ask_price - best_bid_price) / mid * 100) ]>
                 (<[ "spread" := VNum (best_ask_price - best_bid_price) ]>
                    (<[ "mid_price" := VNum mid ]> ∅)) in
             let bid_volume := sum_qty (bids ob) in
             let ask_volume := sum_qty (asks ob) in
             let total_volume := bid_volume + ask_volume in
             let f1 := <[ "bid_ask_imbalance" :=
                          VNum (if Qgtb total_volume 0
                                then (bid_volume - ask_volume) / total_volume else 0) ]> f0 in
             let f2 := depth_features ob 10 "10"
                         (depth_features ob 5 "5" (depth_features ob 1 "1" f1)) in
             impact_features ob 10 "10"
               (impact_features ob 5 "5" (impact_features ob 1 "1" f2))
       | _, _ => ∅
       end.

(** What [calculate_market_depth] returns (its dictionary, key by key;
    [depth_mid_price] is the entry 'mid_price'). *)
Record market_depth : Type := mkDepth {
  bid_volume : Q;
  ask_volume : Q;
  bid_ask_ratio : Q;
  depth_mid_price : Q
}.

Definition calculate_market_depth (ob : OrderBook) (price_range_percent : Q) : market_depth :=
  if unusable ob then mkDepth 0 0 0 0
  else
    let mid_price := get_mid_price ob in
    if Qeq_bool mid_price 0 then mkDepth 0 0 0 0
    else
      let price_range := mid_price * (price_range_percent / 100) in
      let min_price := mid_price - price_range in
      let max_price := mid_price + price_range in
      let bid_volume := sum_qty (List.filter (fun item => Qle_bool min_price item.1) (bids ob)) in
      let ask_volume := sum_qty (List.filter (fun item => Qle_bool item.1 max_price) (asks ob)) in
      let bid_ask_ratio := if Qgtb ask_volume 0 then bid_volume / ask_volume else 0 in
      mkDepth bid_volume ask_volume bid_ask_ratio mid_price.

End order_book.

(** ** [src/data/orderbook.py]: the stand-alone book

    Values are [(price, qty)] pairs; bids are keyed by the negated price, so
    the bid side iterates in descending price order. *)

Module orderbook.

Record OrderBook : Type := mkOrderBook {
  bids : list (Q * (Q * Q));
  asks : list (Q * (Q * Q));
  timestamp : pyval;
  exchange : pyval;
  symbol : pyval;
  last_update_time : option Q
}.

Definition init : OrderBook :=
  {| bids := []; asks := []; timestamp := VNone; exchange := VNone; symbol := VNone;
     last_update_time := None |}.

(** [for price_str, qty_str in ...]: unpacking an item into two names. *)
Definition unpack2 (item : pyval) : result (pyval * pyval) :=
  xs ← py_iter item;
  match xs with
  | [a; b] => Ok (a, b)
  | _ => Raise ValueError
  end.

(** One iteration of a side loop; [is_bid] selects the key. *)
Definition apply_level `{FloatParser} (is_bid : bool) (side : list (Q * (Q * Q)))
  (item : pyval) : result (list (Q * (Q * Q))) :=
  '(price_str, qty_str) ← unpack2 item;
  price ← py_float price_str;
  qty ← py_float qty_str;
  if Qgtb qty 0
  then Ok (SortedDict.setitem (if is_bid then - price else price) (price, qty) side)
  else Ok side.

Fixpoint update_levels `{FloatParser} (is_bid : bool) (side : list (Q * (Q * Q)))
  (items : list pyval) : list (Q * (Q * Q)) * result unit :=
  match items with
  | [] => (side, Ok tt)
  | item :: rest =>
      match apply_level is_bid side item with
      | Ok side' => update_levels is_bid side' rest
      | Raise e => (side, Raise e)
      end
  end.

(** [side.clear()] followed by the loop over [data.get(key, [])]. *)
Definition rebuild_side `{FloatParser} (is_bid : bool) (levels : pyval)
  : list (Q * (Q * Q)) * result unit :=
  match py_iter levels with
  | Raise e => ([], Raise e)
  | Ok items => update_levels is_bid [] items
  end.

(** [update]: whatever the [try] block raises is logged and raised again;
    the fields assigned before the exception keep their new values.  [now]
    is [time.time()], [elapsed_ms] the measured duration that is returned. *)
Definition update `{FloatParser} (now elapsed_ms : Q) (ob : OrderBook)
  (data : gmap string pyval) : OrderBook * result Q :=
  let ts := dict_get data "timestamp" VNone in
  let ex := dict_get data "exchange" VNone in
  let sy := dict_get data "symbol" VNone in
  let '(bids', rb) := rebuild_side true (dict_get data "bids" (VList [])) in
  match rb with
  | Raise e =>
      ({| bids := bids'; asks := asks ob; timestamp := ts; exchange := ex; symbol := sy;
          last_update_time := last_update_time ob |}, Raise e)
  | Ok _ =>
      let '(asks', ra) := rebuild_side false (dict_get data "asks" (VList [])) in
      match ra with
      | Raise e =>
          ({| bids := bids'; asks := asks'; timestamp := ts; exchange := ex; symbol := sy;
              last_update_time := last_update_time ob |}, Raise e)
      | Ok _ =>
          ({| bids := bids'; asks := asks'; timestamp := ts; exchange := ex; symbol := sy;
              last_update_time := Some now |}, Ok elapsed_ms)
      end
  end.

Definition get_best_bid (ob : OrderBook) : option Q :=
  match SortedDict.keys (bids ob) with
  | [] => None
  | k :: _ => Some (- k)
  end.

Definition get_best_ask (ob : OrderBook) : option Q :=
  match SortedDict.keys (asks ob) with
  | [] => None
  | k :: _ => Some k
  end.

Definition get_mid_price (ob : OrderBook) : option Q :=
  match get_best_bid ob, get_best_ask ob with
  | Some best_bid, Some best_ask => Some ((best_bid + best_ask) / 2)
  | _, _ => None
  end.

Definition get_spread (ob : OrderBook) : option Q :=
  match get_best_bid ob, get_best_ask ob with
  | Some best_bid, Some best_ask => Some (best_ask - best_bid)
  | _, _ => None
  end.

Definition get_spread_percentage (ob : OrderBook) : option Q :=
  match get_spread ob, get_mid_price ob with
  | Some spread, Some mid =>
      if Qeq_bool mid 0 then None else Some (spread / mid * 100)
  | _, _ => None
  end.

(** [get_depth]: [(bids, asks)], each the first [levels] stored pairs. *)
Definition get_depth (ob : OrderBook) (levels : nat) : list (Q * Q) * list (Q * Q) :=
  (take levels (SortedDict.values (bids ob)), take levels (SortedDict.values (asks ob))).





(** A value that is a number or [None]. *)
Definition opt_val (o : option Q) : pyval :=
  match o with
  | Some q => VNum q
  | None => VNone
  end.

(** [sum(price * qty for price, qty in items)] *)
Definition sum_notional (items : list (Q * Q)) : Q :=
  foldr (fun item acc => item.1 * item.2 + acc) 0 items.

(** The weighted average price of the listed levels, [None] for an empty
    list; the division is not guarded. *)
Definition weighted_price (items : list (Q * Q)) : result pyval :=
  match items with
  | [] => Ok VNone
  | _ => if Qeq_bool (order_book.sum_qty items) 0 then Raise ZeroDivisionError
         else Ok (VNum (sum_notional items / order_book.sum_qty items))
  end.

(** [sum(qty for price, qty in bids if price >= bound)] and
    [sum(qty for price, qty in asks if price <= bound)] *)
Definition depth_from (bound : Q) (bids : list (Q * Q)) : Q :=
  order_book.sum_qty (List.filter (fun item => Qle_bool bound item.1) bids).

Definition depth_up_to (bound : Q) (asks : list (Q * Q)) : Q :=
  order_book.sum_qty (List.filter (fun item => Qle_bool item.1 bound) asks).

(** [get_order_book_features]: the dictionary it builds, or the exception
    of a division; the six depth entries exist only when there is a mid
    price. *)
Definition get_order_book_features (ob : OrderBook) : result (gmap string pyval) :=
  let mid_price := get_mid_price ob in
  let '(bids, asks) := get_depth ob 10 in
  let bid_volume := order_book.sum_qty bids in
  let ask_volume := order_book.sum_qty asks in
  let volume_imbalance :=
    if Qgtb (bid_volume + ask_volume) 0
    then (bid_volume - ask_volume) / (bid_volume + ask_volume) else 0 in
  let features : gmap string pyval :=
    <[ "volume_imbalance" := VNum volume_imbalance ]>
      (<[ "ask_volume" := VNum ask_volume ]>
         (<[ "bid_volume" := VNum bid_volume ]>
            (<[ "spread_percentage" := opt_val (get_spread_percentage ob) ]>
               (<[ "spread" := opt_val (get_spread ob) ]>
                  (<[ "mid_price" := opt_val mid_price ]> ∅))))) in
  weighted_bid_price ← weighted_price bids;
  let features := <[ "weighted_bid_price" := weighted_bid_price ]> features in
  weighted_ask_price ← weighted_price asks;
  let features := <[ "weighted_ask_price" := weighted_ask_price ]> features in
  match mid_price with
  | None => Ok features
  | Some mid_price =>
      Ok (<[ "ask_depth_5pct" := VNum (depth_up_to (mid_price * (105 # 100)) asks) ]>
            (<[ "ask_depth_2pct" := VNum (depth_up_to (mid_price * (102 # 100)) asks) ]>
               (<[ "ask_depth_1pct" := VNum (depth_up_to (mid_price * (101 # 100)) asks) ]>
                  (<[ "bid_depth_5pct" := VNum (depth_from (mid_price * (95 # 100)) bids) ]>
                     (<[ "bid_depth_2pct" := VNum (depth_from (mid_price * (98 # 100)) bids) ]>
                        (<[ "bid_depth_1pct" := VNum (depth_from (mid_price * (99 # 100)) bids) ]>
                           features))))))
  end.

End orderbook.

(** ** Strings: [str.lower()] on ASCII letters *)

Definition lower_ascii (c : ascii) : ascii :=
  let n := nat_of_ascii c in
  if ((65 <=? n)%nat && (n <=? 90)%nat)%bool then ascii_of_nat (n + 32) else c.

Fixpoint lower (s : string) : string :=
  match s with
  | EmptyString => EmptyString
  | String c s' => String (lower_ascii c) (lower s')
  end.

(** [order_type.lower() == 'market']; [lower] exists on strings only. *)
Definition is_market (order_type : pyval) : result bool :=
  match order_type with
  | VStr s => Ok (String.eqb (lower s) "market")
  | _ => Raise AttributeError
  end.

(** ** [src/models/fee_model.py] *)

Module fee_model.

Record fee_rates : Type := mkRates { maker : Q; taker : Q }.

Definition OKX_FEE_TIERS : gmap string fee_rates :=
  list_to_map
    [ ("Tier 1", mkRates (8 # 10000) (10 # 10000));
      ("Tier 2", mkRates (6 # 10000) (8 # 10000));
      ("Tier 3", mkRates (4 # 10000) (6 # 10000));
      ("Tier 4", mkRates (2 # 10000) (4 # 10000));
      ("Tier 5", mkRates 0 (2 # 10000)) ].

Definition exchange_fee_tiers : gmap string (gmap string fee_rates) :=
  {[ "OKX" := OKX_FEE_TIERS ]}.

Record fees : Type := mkFees {
  maker_fee_usd : Q;
  taker_fee_usd : Q;
  total_fee_usd : Q;
  maker_fee_rate : Q;
  taker_fee_rate : Q;
  maker_proportion : Q;
  taker_proportion : Q
}.

(** A dictionary key given as a Python value: a list is unhashable, any
    other value that is not a string is simply not a key of the table. *)
Definition key_in {V : Type} (k : pyval) (d : gmap string V) : result bool :=
  match k with
  | VList _ => Raise TypeError
  | VStr s => Ok (bool_decide (is_Some (d !! s)))
  | _ => Ok false
  end.

Definition getitem {V : Type} (d : gmap string V) (k : string) : result V :=
  match d !! k with
  | Some v => Ok v
  | None => Raise KeyError
  end.

(** The maker and taker proportions before the fees are computed. *)
Definition proportions (order_type : pyval) (maker_taker_proportion : option (gmap string pyval))
  : result (Q * Q) :=
  match maker_taker_proportion with
  | None =>
      m ← is_market order_type;
      if (m : bool) then Ok (0, 1) else Ok (1 # 2, 1 # 2)
  | Some d =>
      maker_proportion ← as_num (dict_get d "maker" (VNum 0));
      taker_proportion ← as_num (dict_get d "taker" (VNum 1));
      let total_proportion := maker_proportion + taker_proportion in
      if Qgtb total_proportion 0
      then Ok (maker_proportion / total_proportion, taker_proportion / total_proportion)
      else Ok (maker_proportion, taker_proportion)
  end.

Definition calculate_fees (exchange fee_tier order_type quantity_usd : pyval)
  (maker_taker_proportion : option (gmap string pyval)) : result fees :=
  known_exchange ← key_in exchange exchange_fee_tiers;
  let exchange := if (known_exchange : bool) then exchange else VStr "OKX" in
  exchange_tiers ← match exchange with
                   | VStr s => getitem exchange_fee_tiers s
                   | _ => Raise KeyError
                   end;
  known_tier ← key_in fee_tier exchange_tiers;
  let fee_tier := if (known_tier : bool) then fee_tier else VStr "Tier 1" in
  fee_rates ← match fee_tier with
              | VStr s => getitem exchange_tiers s
              | _ => Raise KeyError
              end;
  let maker_fee_rate := maker fee_rates in
  let taker_fee_rate := taker fee_rates in
  '(maker_proportion, taker_proportion) ← proportions order_type maker_taker_proportion;
  quantity ← as_num quantity_usd;
  let maker_fee_usd := quantity * maker_proportion * maker_fee_rate in
  let taker_fee_usd := quantity * taker_proportion * taker_fee_rate in
  let total_fee_usd := maker_fee_usd + taker_fee_usd in
  Ok {| maker_fee_usd := maker_fee_usd; taker_fee_usd := taker_fee_usd;
        total_fee_usd := total_fee_usd; maker_fee_rate := maker_fee_rate;
        taker_fee_rate := taker_fee_rate; maker_proportion := maker_proportion;
        taker_proportion := taker_proportion |}.

End fee_model.

(** ** [src/models/maker_taker_model.py] *)

Module maker_taker_model.

Record coefficients : Type := mkCoefficients {
  intercept : Q;
  c_order_type_market : Q;
  c_spread_percentage : Q;
  c_order_size_to_depth_ratio : Q;
  c_volatility : Q
}.

(** [fitted] is [None] while [is_fitted] is false; after [fit] it is the
    scaler and the scikit-learn classifier applied to the feature vector,
    returning the probability of class 1 or raising. *)
Record MakerTakerModel : Type := mkModel {
  fitted : option (list pyval -> result Q);
  default_coefficients : coefficients
}.

(** [__init__] *)
Definition init : MakerTakerModel :=
  {| fitted := None;
     default_coefficients := mkCoefficients 2 2 (5 # 10) (8 # 10) (3 # 10) |}.

Record proportion : Type := mkProportion {
  maker : Q;
  taker : Q;
  error : option exn
}.

(** The body of the [try] block. *)
Definition predict `{MathLib} (self : MakerTakerModel) (order_book_features : gmap string pyval)
  (quantity_usd order_type volatility : pyval) : result proportion :=
  let spread_percentage := dict_get order_book_features "spread_percentage" (VNum (1 # 100)) in
  bid_depth ← as_num (dict_get order_book_features "bid_depth_5pct" (VNum 1));
  ask_depth ← as_num (dict_get order_book_features "ask_depth_5pct" (VNum 1));
  let avg_depth := (bid_depth + ask_depth) / 2 in
  order_size_to_depth_ratio ←
    (if Qgtb avg_depth 0 then q ← as_num quantity_usd; Ok (q / avg_depth) else Ok 1);
  let order_size_to_depth_ratio := py_min order_size_to_depth_ratio 1 in
  market ← is_market order_type;
  let order_type_market : Q := if (market : bool) then 1 else 0 in
  taker_probability ←
    match fitted self with
    | Some predict_proba =>
        predict_proba [VNum order_type_market; spread_percentage;
                       VNum order_size_to_depth_ratio; volatility]
    | None =>
        sp ← as_num spread_percentage;
        vol ← as_num volatility;
        let c := default_coefficients self in
        let z := intercept c + c_order_type_market c * order_type_market
                 + c_spread_percentage c * sp
                 + c_order_size_to_depth_ratio c * order_size_to_depth_ratio
                 + c_volatility c * vol in
        Ok (1 / (1 + np_exp (- z)))
    end;
  market' ← is_market order_type;
  let taker_probability := if (market' : bool) then py_max taker_probability (9 # 10)
                           else taker_probability in
  let maker_probability := 1 - taker_probability in
  Ok {| maker := maker_probability; taker := taker_probability; error := None |}.

(** [predict_proportion]: the [except Exception] handler evaluates
    [order_type.lower()] again, outside any [try]. *)
Definition predict_proportion `{MathLib} (self : MakerTakerModel)
  (order_book_features : gmap string pyval) (quantity_usd order_type volatility : pyval)
  : result proportion :=
  match predict self order_book_features quantity_usd order_type volatility with
  | Ok r => Ok r
  | Raise e =>
      market ← is_market order_type;
      if (market : bool) then Ok {| maker := 0; taker := 1; error := Some e |}
      else Ok {| maker := 8 # 10; taker := 2 # 10; error := Some e |}
  end.

(** The entries of the returned dictionary that [calculate_fees] reads. *)
Definition to_dict (r : proportion) : gmap string pyval :=
  <[ "taker" := VNum (taker r) ]> (<[ "maker" := VNum (maker r) ]> ∅).

End maker_taker_model.

(** ** [src/models/slippage_model.py] *)

Module slippage_model.

Record coefficients : Type := mkCoefficients {
  intercept : Q;
  c_spread_percentage : Q;
  c_order_size_to_depth_ratio : Q;
  c_volume_imbalance : Q;
  c_volatility : Q
}.

(** [fitted]: as for the maker/taker model, the scaler and the regressor
    applied to the feature vector. *)
Record SlippageModel : Type := mkModel {
  fitted : option (list pyval -> result Q);
  default_coefficients : coefficients
}.

Definition init : SlippageModel :=
  {| fitted := None;
     default_coefficients := mkCoefficients (1 # 100) (5 # 10) (8 # 10) (- (2 # 10)) (3 # 10) |}.

Record slippage : Type := mkSlippage {
  slippage_percentage : Q;
  slippage_usd : Q;
  error : option exn
}.

(** The body of the [try] block. *)
Definition predict `{MathLib} (self : SlippageModel) (order_book_features : gmap string pyval)
  (quantity_usd : pyval) (is_buy : bool) (volatility : pyval) : result slippage :=
  let spread_percentage := dict_get order_book_features "spread_percentage" (VNum (1 # 100)) in
  side ←
    (if is_buy
     then Ok (dict_get order_book_features "ask_depth_5pct" (VNum 1),
              dict_get order_book_features "volume_imbalance" (VNum 0))
     else vi ← as_num (dict_get order_book_features "volume_imbalance" (VNum 0));
          Ok (dict_get order_book_features "bid_depth_5pct" (VNum 1), VNum (- vi)));
  let volume_imbalance : pyval := side.2 in
  depth ← as_num side.1;
  order_size_to_depth_ratio ←
    (if Qgtb depth 0 then q ← as_num quantity_usd; Ok (q / depth) else Ok 1);
  let order_size_to_depth_ratio := py_min order_size_to_depth_ratio 1 in
  prediction ←
    match fitted self with
    | Some model_predict =>
        model_predict [spread_percentage; VNum order_size_to_depth_ratio;
                       volume_imbalance; volatility]
    | None =>
        sp ← as_num spread_percentage;
        vi ← as_num volume_imbalance;
        vol ← as_num volatility;
        let c := default_coefficients self in
        Ok (intercept c + c_spread_percentage c * sp
            + c_order_size_to_depth_ratio c * order_size_to_depth_ratio
            + c_volume_imbalance c * vi + c_volatility c * vol)
    end;
  let slippage_percentage := py_max 0 prediction in
  q ← as_num quantity_usd;
  let slippage_usd := q * slippage_percentage / 100 in
  Ok {| slippage_percentage := slippage_percentage; slippage_usd := slippage_usd;
        error := None |}.

(** [predict_slippage]: the handler multiplies [quantity_usd] again. *)
Definition predict_slippage `{MathLib} (self : SlippageModel)
  (order_book_features : gmap string pyval) (quantity_usd : pyval) (is_buy : bool)
  (volatility : pyval) : result slippage :=
  match predict self order_book_features quantity_usd is_buy volatility with
  | Ok r => Ok r
  | Raise e =>
      q ← as_num quantity_usd;
      Ok {| slippage_percentage := 5 # 100; slippage_usd := q * (5 # 10000);
            error := Some e |}
  end.

End slippage_model.

(** ** [src/models/market_impact_model.py] *)

Module market_impact_model.

Record AlmgrenChrissModel : Type := mkModel {
  eta : Q;
  gamma : Q;
  default_time_horizon : Q;
  quantity_scaling : Q
}.

Definition init : AlmgrenChrissModel :=
  {| eta := 1 # 10; gamma := 1 # 10; default_time_horizon := 1; quantity_scaling := 1 |}.

Record impact : Type := mkImpact {
  temporary_impact_usd : Q;
  permanent_impact_usd : Q;
  total_impact_usd : Q;
  error : option exn
}.

(** The body of the [try] block; [(1 / time_horizon) ** 0.5] is the square
    root of a positive number. *)
Definition compute `{MathLib} (self : AlmgrenChrissModel) (quantity_usd volatility mid_price : pyval)
  (time_horizon : option Q) : result impact :=
  let time_horizon :=
    match time_horizon with
    | Some t => if Qle_bool t 0 then default_time_horizon self else t
    | None => default_time_horizon self
    end in
  vol ← as_num volatility;
  let volatility_scaled := vol * math_sqrt (time_horizon / (252 * 24 * 60 * 60)) in
  mid ← match mid_price with
        | VNone => Ok None
        | _ => m ← as_num mid_price; Ok (if Qgtb m 0 then Some m else None)
        end;
  q ← as_num quantity_usd;
  let quantity_asset := match mid with
                        | Some m => q / m
                        | None => q * quantity_scaling self
                        end in
  let abs_quantity := Qabs quantity_asset in
  let temporary_impact_factor :=
    volatility_scaled * abs_quantity * math_sqrt (1 / time_horizon) * eta self in
  let permanent_impact_factor := gamma self * volatility_scaled * abs_quantity in
  let temporary_impact_usd := match mid with
                              | Some m => temporary_impact_factor * m
                              | None => temporary_impact_factor
                              end in
  let permanent_impact_usd := match mid with
                              | Some m => permanent_impact_factor * m
                              | None => permanent_impact_factor
                              end in
  Ok {| temporary_impact_usd := temporary_impact_usd;
        permanent_impact_usd := permanent_impact_usd;
        total_impact_usd := temporary_impact_usd + permanent_impact_usd;
        error := None |}.

Definition calculate_market_impact `{MathLib} (self : AlmgrenChrissModel)
  (quantity_usd volatility mid_price : pyval) (time_horizon : option Q) : result impact :=
  match compute self quantity_usd volatility mid_price time_horizon with
  | Ok r => Ok r
  | Raise e =>
      q ← as_num quantity_usd;
      Ok {| temporary_impact_usd := q * (1 # 10000);
            permanent_impact_usd := q * (1 # 10000);
            total_impact_usd := q * (2 # 10000);
            error := Some e |}
  end.

(** [calibrate]: a parameter is replaced only by a value that is given and
    positive. *)
Definition calibrate (self : AlmgrenChrissModel) (eta gamma quantity_scaling : option Q)
  : AlmgrenChrissModel :=
  let pick (given : option Q) (current : Q) : Q :=
    match given with
    | Some value => if Qgtb value 0 then value else current
    | None => current
    end in
  {| eta := pick eta (market_impact_model.eta self);
     gamma := pick gamma (market_impact_model.gamma self);
     default_time_horizon := default_time_horizon self;
     quantity_scaling := pick quantity_scaling (market_impact_model.quantity_scaling self) |}.

End market_impact_model.

(** ** [src/models/simulation_engine.py] *)

Module simulation_engine.

Record performance : Type := mkPerformance {
  averageLatencyMs : Q;
  tickCount : nat;
  orderBookUpdateTimeMs : pyval;
  timeSinceLastTickMs : option Q
}.

Record success_output : Type := mkSuccess {
  simulationId : string;
  timestampUTC : pyval;
  expectedSlippageUSD : Q;
  expectedFeesUSD : Q;
  expectedMarketImpactUSD : Q;
  netCostUSD : Q;
  makerTakerProportion : Q * Q;
  internalLatencyMs : Q;
  perf : performance
}.

(** What [process_tick] returns: the output dictionary or the error
    dictionary with [status = 'error']. *)
Inductive tick_output : Type :=
| Success (o : success_output)
| Error (simulationId : string) (timestampUTC : pyval) (error : exn).

Record SimulationEngine : Type := mkEngine {
  simulation_id : string;
  parameters : gmap string pyval;
  output_callback : option (tick_output -> result unit);
  order_book : order_book.OrderBook;
  slippage_model : slippage_model.SlippageModel;
  market_impact_model : market_impact_model.AlmgrenChrissModel;
  maker_taker_model : maker_taker_model.MakerTakerModel;
  processing_times : list Q;
  last_tick_time : option Q;
  tick_count : nat
}.

(** [__init__] *)
Definition init (simulation_id : string) (parameters : gmap string pyval)
  (output_callback : option (tick_output -> result unit)) : SimulationEngine :=
  {| simulation_id := simulation_id; parameters := parameters;
     output_callback := output_callback;
     order_book := order_book.init (dict_get parameters "spotAsset" (VStr "BTC-USDT")) 20;
     slippage_model := slippage_model.init;
     market_impact_model := market_impact_model.init;
     maker_taker_model := maker_taker_model.init;
     processing_times := []; last_tick_time := None; tick_count := 0 |}.

(** The clock readings of one call: [time.perf_counter()] at the start and
    at the end, [time.time()] in [process_tick] and in [OrderBook.update]. *)
Record clock : Type := mkClock {
  perf_start : Q;
  time_tick : Q;
  time_update : Q;
  perf_end : Q
}.

Definition begin_tick (self : SimulationEngine) (current_time : Q)
  (ob : order_book.OrderBook) : SimulationEngine :=
  {| simulation_id := simulation_id self; parameters := parameters self;
     output_callback := output_callback self; order_book := ob;
     slippage_model := slippage_model self;
     market_impact_model := market_impact_model self;
     maker_taker_model := maker_taker_model self;
     processing_times := processing_times self;
     last_tick_time := Some current_time; tick_count := S (tick_count self) |}.

Definition record_time (self : SimulationEngine) (processing_time_ms : Q) : SimulationEngine :=
  {| simulation_id := simulation_id self; parameters := parameters self;
     output_callback := output_callback self; order_book := order_book self;
     slippage_model := slippage_model self;
     market_impact_model := market_impact_model self;
     maker_taker_model := maker_taker_model self;
     processing_times := processing_times self ++ [processing_time_ms];
     last_tick_time := last_tick_time self; tick_count := tick_count self |}.

Definition call_callback (self : SimulationEngine) (o : tick_output) : result unit :=
  match output_callback self with
  | Some cb => cb o
  | None => Ok tt
  end.

Definition sum_list (l : list Q) : Q := foldr Qplus 0 l.

(** The four model calls and their results, in the order of the source. *)
Definition run_models `{MathLib} (self : SimulationEngine)
  (order_book_features : gmap string pyval)
  : result (maker_taker_model.proportion * fee_model.fees
            * slippage_model.slippage * market_impact_model.impact) :=
  let exchange := dict_get (parameters self) "exchange" (VStr "OKX") in
  let order_type := dict_get (parameters self) "orderType" (VStr "market") in
  let quantity_usd := dict_get (parameters self) "quantityUSD" (VNum 100) in
  let volatility := dict_get (parameters self) "volatility" (VNum (2 # 100)) in
  let fee_tier := dict_get (parameters self) "feeTier" (VStr "Tier 1") in
  maker_taker_result ←
    maker_taker_model.predict_proportion (maker_taker_model self) order_book_features
      quantity_usd order_type volatility;
  fee_result ←
    fee_model.calculate_fees exchange fee_tier order_type quantity_usd
      (Some (maker_taker_model.to_dict maker_taker_result));
  slippage_result ←
    slippage_model.predict_slippage (slippage_model self) order_book_features
      quantity_usd true volatility;
  market_impact_result ←
    market_impact_model.calculate_market_impact (market_impact_model self)
      quantity_usd volatility (dict_get order_book_features "mid_price" VNone) None;
  Ok (maker_taker_result, fee_result, slippage_result, market_impact_result).

(** The [try] block of [process_tick]: the engine as the block leaves it
    and the output, or the exception that left the block. *)
Definition try_block `{FloatParser} `{MathLib} (clk : clock) (self : SimulationEngine)
  (tick_data : gmap string pyval) : SimulationEngine * result tick_output :=
  let time_since_last_tick :=
    match last_tick_time self with
    | Some t => Some (time_tick clk - t)
    | None => None
    end in
  let order_book_data : gmap string pyval :=
    <[ "bids" := dict_get tick_data "bids" (VList []) ]>
      (<[ "asks" := dict_get tick_data "asks" (VList []) ]>
         (<[ "symbol" := dict_get tick_data "symbol"
                           (dict_get (parameters self) "spotAsset" (VStr "BTC-USDT")) ]>
            (<[ "exchange" := dict_get tick_data "exchange" (VStr "OKX") ]>
               (<[ "timestamp" := dict_get tick_data "timestamp" (VStr EmptyString) ]> ∅)))) in
  let '(ob, updated) := order_book.update (time_update clk) (order_book self) order_book_data in
  let self := begin_tick self (time_tick clk) ob in
  match updated with
  | Raise e => (self, Raise e)
  | Ok order_book_update_time =>
      let order_book_features := order_book.get_order_book_features (order_book self) in
      match run_models self order_book_features with
      | Raise e => (self, Raise e)
      | Ok (maker_taker_result, fee_result, slippage_result, market_impact_result) =>
          let net_cost_usd :=
            slippage_model.slippage_usd slippage_result
            + fee_model.total_fee_usd fee_result
            + market_impact_model.total_impact_usd market_impact_result in
          let processing_time_ms := (perf_end clk - perf_start clk) * 1000 in
          let self := record_time self processing_time_ms in
          let avg_processing_time :=
            sum_list (processing_times self)
            / inject_Z (Z.of_nat (List.length (processing_times self))) in
          let output :=
            Success
              {| simulationId := simulation_id self;
                 timestampUTC := dict_get tick_data "timestamp" VNone;
                 expectedSlippageUSD := slippage_model.slippage_usd slippage_result;
                 expectedFeesUSD := fee_model.total_fee_usd fee_result;
                 expectedMarketImpactUSD :=
                   market_impact_model.total_impact_usd market_impact_result;
                 netCostUSD := net_cost_usd;
                 makerTakerProportion :=
                   (maker_taker_model.maker maker_taker_result,
                    maker_taker_model.taker maker_taker_result);
                 internalLatencyMs := processing_time_ms;
                 perf :=
                   {| averageLatencyMs := avg_processing_time;
                      tickCount := tick_count self;
                      orderBookUpdateTimeMs := order_book_update_time;
                      timeSinceLastTickMs :=
                        match time_since_last_tick with
                        | Some d => if q_truthy d then Some (d * 1000) else None
                        | None => None
                        end |} |} in
          match call_callback self output with
          | Raise e => (self, Raise e)
          | Ok _ => (self, Ok output)
          end
      end
  end.

(** [process_tick] on a dictionary: the [except Exception] handler builds
    the error output, hands it to the callback and returns it. *)
Definition process_tick `{FloatParser} `{MathLib} (clk : clock) (self : SimulationEngine)
  (tick_data : gmap string pyval) : SimulationEngine * result tick_output :=
  match try_block clk self tick_data with
  | (self', Ok output) => (self', Ok output)
  | (self', Raise e) =>
      let error_output :=
        Error (simulation_id self') (dict_get tick_data "timestamp" VNone) e in
      match call_callback self' error_output with
      | Raise e' => (self', Raise e')
      | Ok _ => (self', Ok error_output)
      end
  end.




End simulation_engine.

(** ** [src/websocket/connector.py]: the reconnect loop

    [_maintain_connection] is a loop whose every iteration makes one
    connection attempt.  What the network does in an iteration is the
    input of the model; what the loop does (connect, resubscribe, sleep,
    give up) is its output. *)

Module connector.

Record WebSocketConnector : Type := mkConnector {
  should_run : bool;
  (** [None], or [Some open] for a websocket object *)
  websocket : option bool;
  reconnect_interval : Q;
  max_reconnect_attempts : nat;
  reconnect_attempts : nat;
  subscriptions : list (string * string)
}.

(** [__init__], with [should_run] as [connect()] sets it. *)
Definition started : WebSocketConnector :=
  {| should_run := true; websocket := None; reconnect_interval := 5;
     max_reconnect_attempts := 5; reconnect_attempts := 0; subscriptions := [] |}.

(** What happens in one iteration of the loop. *)
Inductive outcome : Type :=
| ConnectRaised      (** [websockets.connect] raised *)
| ConnectionLost     (** connected; the receive loop raised later *)
| StreamEnded.       (** connected; the receive loop ended without raising *)

(** [stop_requested]: [should_run] was cleared while the iteration ran. *)
Record iteration_event : Type := mkEvent {
  what : outcome;
  stop_requested : bool
}.

Inductive action : Type :=
| Connect
| Resubscribe (subs : list (string * string))
| Sleep (wait_time : Q)
| GiveUp.

Definition set_connection (self : WebSocketConnector) (ws : option bool) (attempts : nat)
  (run : bool) : WebSocketConnector :=
  {| should_run := run; websocket := ws; reconnect_interval := reconnect_interval self;
     max_reconnect_attempts := max_reconnect_attempts self;
     reconnect_attempts := attempts; subscriptions := subscriptions self |}.

(** [self.reconnect_interval * min(self.reconnect_attempts, 5)] *)
Definition wait_time (self : WebSocketConnector) : Q :=
  reconnect_interval self * inject_Z (Z.of_nat (Nat.min (reconnect_attempts self) 5)).

(** Either [except] clause: both run the same statements.  The boolean
    tells whether the [while] loop goes on. *)
Definition on_exception (self : WebSocketConnector)
  : WebSocketConnector * list action * bool :=
  let self := set_connection self None (reconnect_attempts self) (should_run self) in
  if should_run self then
    let self := set_connection self None (S (reconnect_attempts self)) true in
    if (max_reconnect_attempts self <? reconnect_attempts self)%nat
    then (self, [GiveUp], false)
    else (self, [Sleep (wait_time self)], true)
  else (self, [], false).

Definition on_connected (self : WebSocketConnector) : WebSocketConnector * list action :=
  (set_connection self (Some true) 0 (should_run self),
   match subscriptions self with
   | [] => []
   | subs => [Resubscribe subs]
   end).

Definition request_stop (self : WebSocketConnector) (stop : bool) : WebSocketConnector :=
  if stop then set_connection self (websocket self) (reconnect_attempts self) false
  else self.

(** One iteration of the [while self.should_run] loop. *)
Definition iteration (self : WebSocketConnector) (ev : iteration_event)
  : WebSocketConnector * list action * bool :=
  match what ev with
  | ConnectRaised =>
      let '(self', acts, go_on) := on_exception (request_stop self (stop_requested ev)) in
      (self', Connect :: acts, go_on)
  | ConnectionLost =>
      let '(self1, acts1) := on_connected self in
      let '(self', acts, go_on) := on_exception (request_stop self1 (stop_requested ev)) in
      (self', (Connect :: acts1 ++ acts)%list, go_on)
  | StreamEnded =>
      let '(self1, acts1) := on_connected self in
      let self' := request_stop (set_connection self1 (Some false) 0 (should_run self1))
                                (stop_requested ev) in
      (self', Connect :: acts1, true)
  end.

(** The loop over the iterations the network provides: the connector, what
    the loop did, and whether the loop has exited ([false]: it is waiting
    for the next outcome). *)
Fixpoint _maintain_connection (self : WebSocketConnector) (events : list iteration_event)
  : WebSocketConnector * list action * bool :=
  if negb (should_run self) then (self, [], true)
  else match events with
       | [] => (self, [], false)
       | ev :: rest =>
           let '(self', acts, go_on) := iteration self ev in
           if go_on
           then let '(self'', acts', exited) := _maintain_connection self' rest in
                (self'', (acts ++ acts')%list, exited)
           else (self', acts, true)
       end.


Definition set_subscriptions (self : WebSocketConnector) (subs : list (string * string))
  : WebSocketConnector :=
  {| should_run := should_run self; websocket := websocket self;
     reconnect_interval := reconnect_interval self;
     max_reconnect_attempts := max_reconnect_attempts self;
     reconnect_attempts := reconnect_attempts self; subscriptions := subs |}.

(** [send]: nothing is sent without an open websocket; [delivered] tells
    whether the [try] block ([json.dumps], [websocket.send]) ended without
    raising. *)
Definition send (self : WebSocketConnector) (delivered : bool) : bool :=
  match websocket self with
  | Some true => delivered
  | _ => false
  end.

(** [subscribe]: a subscription is the pair of its channel and instrument;
    after a successful send every path returns [True]. *)
Definition subscribe (self : WebSocketConnector) (channel instrument_id : string)
  (delivered : bool) : WebSocketConnector * bool :=
  let subscription := (channel, instrument_id) in
  if bool_decide (subscription ∈ subscriptions self) then (self, true)
  else if send self delivered
       then (set_subscriptions self (subscriptions self ++ [subscription])%list, true)
       else (self, false).

(** [list.remove]: the first occurrence is removed. *)
Fixpoint list_remove (x : string * string) (l : list (string * string))
  : list (string * string) :=
  match l with
  | [] => []
  | y :: tl => if bool_decide (x = y) then tl else y :: list_remove x tl
  end.

Definition unsubscribe (self : WebSocketConnector) (channel instrument_id : string)
  (delivered : bool) : WebSocketConnector * bool :=
  let subscription := (channel, instrument_id) in
  if negb (bool_decide (subscription ∈ subscriptions self)) then (self, true)
  else if send self delivered
       then (set_subscriptions self (list_remove subscription (subscriptions self)), true)
       else (self, false).

(** [range(0, stop, step)] *)
Definition range_step (stop step : nat) : list nat :=
  (fun k => k * step)%nat <$> seq 0 ((stop + step - 1) / step).

(** [_resubscribe]: the [args] of the messages it hands to [send], in
    order; a failed send is logged and the loop goes on. *)
Definition _resubscribe (self : WebSocketConnector) : list (list (string * string)) :=
  match subscriptions self with
  | [] => []
  | subs => (fun i => take 10 (drop i subs)) <$> range_step (List.length subs) 10
  end.

End connector.

(** ** Instances for evaluating examples *)

Definition decimal_parser : FloatParser := parse_decimal.

(** A rational stand-in for [numpy.exp] (a truncated series) and
    [math.sqrt] (a few Newton steps); the theorems below do not depend on
    it. *)
Definition exp_series (x : Q) : Q :=
  1 + x + x * x / 2 + x * x * x / 6 + x * x * x * x / 24.

Definition newton_sqrt (x : Q) : Q :=
  if Qle_bool x 0 then 0
  else Nat.iter 4 (fun y => Qred ((y + x / y) / 2)) 1.

Definition rational_math : MathLib := {| np_exp := exp_series; math_sqrt := newton_sqrt |}.

(** ** Predicates of the statements *)

Definition ascending (l : list Q) : Prop := StronglySorted Qlt l.
Definition descending (l : list Q) : Prop := StronglySorted (fun a b => b < a) l.

(** Every stored level of a side of [order_book.OrderBook] has a positive
    quantity. *)
Definition positive_quantities (side : list (Q * Q)) : Prop :=
  Forall (fun level => 0 < level.2) side.

(** A side of [orderbook.OrderBook]: the key is the price ([sign = 1]) or the
    negated price ([sign = -1]) and the quantity is positive. *)
Definition keyed_levels (sign : Q) (side : list (Q * (Q * Q))) : Prop :=
  Forall (fun entry => entry.1 == sign * entry.2.1 /\ 0 < entry.2.2) side.

(** The prices in iteration order. *)
Definition prices (side : list (Q * (Q * Q))) : list Q := map (fun entry => entry.2.1) side.




Definition orderbook_run `{FloatParser} (ob : orderbook.OrderBook)
  (updates : list (Q * Q * gmap string pyval)) : orderbook.OrderBook :=
  foldl (fun ob u => (orderbook.update u.1.1 u.1.2 ob u.2).1) ob updates.

(** The invariant of a side of [order_book.OrderBook], and of the book. *)
Definition side_ok (side : list (Q * Q)) : Prop :=
  ascending (SortedDict.keys side) /\ positive_quantities side.

Definition book_ok (ob : order_book.OrderBook) : Prop :=
  side_ok (order_book.asks ob) /\ side_ok (order_book.bids ob).

(** The invariant of [orderbook.OrderBook]. *)
Definition orderbook_ok (ob : orderbook.OrderBook) : Prop :=
  ascending (SortedDict.keys (orderbook.bids ob)) /\
  ascending (SortedDict.keys (orderbook.asks ob)) /\
  keyed_levels (-1) (orderbook.bids ob) /\
  keyed_levels 1 (orderbook.asks ob).

Definition sign_of (is_bid : bool) : Q := if is_bid then -1 else 1.

Definition half_ok (is_bid : bool) (side : list (Q * (Q * Q))) : Prop :=
  ascending (SortedDict.keys side) /\ keyed_levels (sign_of is_bid) side.



(** Example snapshots. *)
Definition token_pair (price qty : string) : pyval := VList [VStr price; VStr qty].

Definition snapshot (bids asks : list pyval) : gmap string pyval :=
  <[ "asks" := VList asks ]> (<[ "bids" := VList bids ]> ∅).

(** ** The greedy fill in the words of the specification

    Walking a side from the best price outward, each level gives
    [min(what is still wanted, its notional)]. *)







(** The rates [calculate_fees] ends up with for a tier name: the OKX table,
    with 'Tier 1' for a name the table does not have. *)
Definition effective_rates (fee_tier : string) : fee_model.fee_rates :=
  default (fee_model.mkRates (8 # 10000) (10 # 10000)) (fee_model.OKX_FEE_TIERS !! fee_tier).

(** Example inputs of the cost models. *)
Definition favourable_features : gmap string pyval :=
  <[ "volume_imbalance" := VNum 100 ]> (<[ "spread_percentage" := VNum (1 # 100) ]> ∅).


Definition split_70_30 : gmap string pyval :=
  <[ "taker" := VNum 3 ]> (<[ "maker" := VNum 7 ]> ∅).

(** The number of connection attempts among the actions of the loop. *)
Definition connect_count (acts : list connector.action) : nat :=
  List.length (List.filter (fun a => match a with connector.Connect => true | _ => false end) acts).


(** The caller's callback does not raise. *)
Definition callback_ok (self : simulation_engine.SimulationEngine) : Prop :=
  forall cb o, simulation_engine.output_callback self = Some cb -> cb o = Ok tt.



(** Example ticks and clock. *)
Definition malformed_tick : gmap string pyval :=
  <[ "bids" := VNone ]> (<[ "asks" := VNum 5 ]> ∅).

Definition clock0 : simulation_engine.clock :=
  {| simulation_engine.perf_start := 0; simulation_engine.time_tick := 0;
     simulation_engine.time_update := 0; simulation_engine.perf_end := 0 |}.

(** ** Predicates of the further properties *)

(** The state [order_book.update] leaves when it completes: the book is
    initialized and the cached mid price is the one of the sides. *)
Definition refreshed (ob : order_book.OrderBook) : Prop :=
  order_book.is_initialized ob = true /\
  order_book.mid_price ob = order_book.compute_mid ob.



(** A new model after a sequence of [calibrate] calls, each with its three
    optional arguments. *)
Definition calibrated (calls : list (option Q * option Q * option Q))
  : market_impact_model.AlmgrenChrissModel :=
  foldl (fun self call => market_impact_model.calibrate self call.1.1 call.1.2 call.2)
        market_impact_model.init calls.

(* ===================================================================== *)
(** * Theorems *)
(* ===================================================================== *)

(** ** Comparisons *)

Lemma Qgtb_true (a b : Q) : Qgtb a b = true <-> b < a.
Proof.
  unfold Qgtb. rewrite negb_true_iff.
  split.
  - intros Hle. apply Qnot_le_lt. intros Hc. apply Qle_bool_iff in Hc. congruence.
  - intros Hlt. destruct (Qle_bool a b) eqn:E; [|reflexivity].
    apply Qle_bool_iff in E. exfalso. exact (Qlt_not_le _ _ Hlt E).
Qed.

Lemma Qgtb_false (a b : Q) : Qgtb a b = false <-> a <= b.
Proof.
  unfold Qgtb. rewrite negb_false_iff. apply Qle_bool_iff.
Qed.

Lemma Qle_bool_false (a b : Q) : Qle_bool a b = false <-> b < a.
Proof.
  rewrite <- Qgtb_true. unfold Qgtb. rewrite negb_true_iff. reflexivity.
Qed.


Lemma Qeq_bool_neg (a b : Q) : ~ a == b -> Qeq_bool a b = false.
Proof.
  intros Hne. destruct (Qeq_bool a b) eqn:E; [|reflexivity].
  apply Qeq_bool_iff in E. contradiction.
Qed.

Lemma py_min_spec (a b : Q) : py_min a b == Qmin a b.
Proof.
  unfold py_min, Qltb.
  destruct (Qle_bool a b) eqn:E; simpl.
  - apply Qle_bool_iff in E. symmetry. apply Q.min_l. exact E.
  - apply Qle_bool_false in E. symmetry. apply Q.min_r. apply Qlt_le_weak. exact E.
Qed.


Lemma py_max_ge_l (a b : Q) : a <= py_max a b.
Proof.
  unfold py_max. destruct (Qgtb b a) eqn:E.
  - apply Qgtb_true in E. apply Qlt_le_weak. exact E.
  - apply Qle_refl.
Qed.

(** ** SortedDict keeps its keys strictly ascending *)

Section SortedDictFacts.
Context {V : Type}.
Implicit Types (d : list (Q * V)) (k : Q) (v : V).

Lemma setitem_lower_bound k0 k v d :
  k0 < k -> Forall (Qlt k0) (SortedDict.keys d) ->
  Forall (Qlt k0) (SortedDict.keys (SortedDict.setitem k v d)).
Proof.
  intros Hk. induction d as [|[k' v'] tl IH]; simpl; intros Hall.
  - repeat constructor. exact Hk.
  - inversion Hall as [|? ? Hk' Htl]; subst.
    destruct (Qcompare_spec k k'); simpl; constructor; auto.
Qed.

Lemma setitem_ascending k v d :
  ascending (SortedDict.keys d) -> ascending (SortedDict.keys (SortedDict.setitem k v d)).
Proof.
  unfold ascending.
  induction d as [|[k' v'] tl IH]; simpl; intros Hs.
  - repeat constructor.
  - inversion Hs as [|? ? Htl Hall]; subst.
    destruct (Qcompare_spec k k') as [Heq|Hlt|Hgt]; simpl.
    + constructor; assumption.
    + constructor; [assumption|].
      constructor; [exact Hlt|].
      eapply Forall_impl; [exact Hall|].
      intros x Hx. simpl in Hx. eapply Qlt_trans; eassumption.
    + constructor; [apply IH; assumption|].
      apply setitem_lower_bound; assumption.
Qed.

(** A property of the entries that does not tell equal keys apart survives
    [setitem]. *)
Lemma setitem_Forall (P : Q -> V -> Prop) k v d :
  (forall k1 k2 x, k1 == k2 -> P k1 x -> P k2 x) ->
  P k v -> Forall (fun e => P e.1 e.2) d ->
  Forall (fun e => P e.1 e.2) (SortedDict.setitem k v d).
Proof.
  intros Hproper Hkv. induction d as [|[k' v'] tl IH]; simpl; intros Hall.
  - repeat constructor. exact Hkv.
  - inversion Hall as [|? ? Hhd Htl]; subst.
    destruct (Qcompare_spec k k') as [Heq|Hlt|Hgt]; simpl.
    + constructor; [|assumption]. simpl. eapply Hproper; eassumption.
    + constructor; [exact Hkv|]. constructor; assumption.
    + constructor; [assumption|]. apply IH; assumption.
Qed.

Lemma pop_first_ascending d :
  ascending (SortedDict.keys d) -> ascending (SortedDict.keys (SortedDict.pop_first d)).
Proof.
  unfold ascending. destruct d as [|e tl]; simpl; intros Hs; [assumption|].
  inversion Hs; assumption.
Qed.

Lemma pop_last_keys d :
  SortedDict.keys (SortedDict.pop_last d) = removelast (SortedDict.keys d).
Proof.
  unfold SortedDict.pop_last, SortedDict.keys.
  induction d as [|e [|e' tl] IH]; simpl in *; try reflexivity.
  f_equal. exact IH.
Qed.

Lemma removelast_Forall {A : Type} (P : A -> Prop) (l : list A) :
  Forall P l -> Forall P (removelast l).
Proof.
  induction l as [|x [|y tl] IH]; simpl; intros Hall; try constructor.
  - inversion Hall; assumption.
  - apply IH. inversion Hall; assumption.
Qed.

Lemma pop_last_ascending d :
  ascending (SortedDict.keys d) -> ascending (SortedDict.keys (SortedDict.pop_last d)).
Proof.
  rewrite pop_last_keys. unfold ascending.
  generalize (SortedDict.keys d). intros l.
  induction l as [|x [|y tl] IH]; simpl; intros Hs; try constructor.
  - apply IH. inversion Hs; assumption.
  - inversion Hs as [|? ? _ Hall]; subst.
    apply (removelast_Forall (Qlt x) (y :: tl)). exact Hall.
Qed.

End SortedDictFacts.

(** ** [order_book.py]: the invariant of the sides *)

Section OrderBookInvariant.
Context `{FloatParser}.

Lemma side_ok_nil : side_ok [].
Proof. split; constructor. Qed.

Lemma side_ok_setitem price quantity side :
  0 < quantity -> side_ok side -> side_ok (SortedDict.setitem price quantity side).
Proof.
  intros Hq [Hs Hp]. split.
  - apply setitem_ascending. exact Hs.
  - apply (setitem_Forall (fun _ q => 0 < q)); auto.
Qed.

Lemma apply_level_ok side level side' :
  order_book.apply_level side level = Ok side' -> side_ok side -> side_ok side'.
Proof.
  unfold order_book.apply_level. intros Happ Hok.
  destruct (py_len level) as [n|e]; simpl in Happ; [|discriminate].
  destruct (n <? 2)%nat; [congruence|].
  destruct (order_book.parse_level level) as [[price quantity]|e].
  - destruct (Qle_bool quantity 0) eqn:Hq; [congruence|].
    inversion Happ; subst. apply side_ok_setitem; [|exact Hok].
    apply Qle_bool_false. exact Hq.
  - destruct e; congruence.
Qed.

Lemma update_levels_ok levels side :
  side_ok side -> side_ok (order_book.update_levels side levels).1.
Proof.
  revert side. induction levels as [|level rest IH]; intros side Hok; simpl.
  - exact Hok.
  - destruct (order_book.apply_level side level) as [side'|e] eqn:Happ.
    + apply IH. eapply apply_level_ok; eassumption.
    + exact Hok.
Qed.

Lemma side_ok_pop_first side : side_ok side -> side_ok (SortedDict.pop_first side).
Proof.
  intros [Hs Hp]. split; [apply pop_first_ascending; exact Hs|].
  destruct side; simpl; [constructor|]. inversion Hp; assumption.
Qed.

Lemma side_ok_pop_last side : side_ok side -> side_ok (SortedDict.pop_last side).
Proof.
  intros [Hs Hp]. split; [apply pop_last_ascending; exact Hs|].
  apply removelast_Forall. exact Hp.
Qed.

Lemma trim_ok is_bid max_depth side :
  side_ok side -> side_ok (order_book.trim is_bid max_depth side).
Proof.
  unfold order_book.trim. intros Hok.
  induction (List.length side - max_depth)%nat as [|n IH]; simpl; [exact Hok|].
  destruct is_bid; [apply side_ok_pop_first|apply side_ok_pop_last]; exact IH.
Qed.

Lemma set_side_ok ob is_bid side :
  book_ok ob -> side_ok side -> book_ok (order_book.set_side ob is_bid side).
Proof.
  intros [Ha Hb] Hs. destruct is_bid; split; simpl; assumption.
Qed.

Lemma _update_side_ok ob levels is_bid :
  book_ok ob -> book_ok (order_book._update_side ob levels is_bid).1.
Proof.
  intros Hok. unfold order_book._update_side.
  destruct (py_iter levels) as [ls|e]; simpl.
  - pose proof (update_levels_ok ls [] side_ok_nil) as Hside.
    destruct (order_book.update_levels [] ls) as [side [u|e]]; simpl in *.
    + apply set_side_ok; [exact Hok|]. apply trim_ok. exact Hside.
    + apply set_side_ok; assumption.
  - apply set_side_ok; [exact Hok|apply side_ok_nil].
Qed.

Lemma update_ok now ob data :
  book_ok ob -> book_ok (order_book.update now ob data).1.
Proof.
  intros Hok. unfold order_book.update.
  set (asks := dict_get data "asks" (VList [])).
  set (bids := dict_get data "bids" (VList [])).
  assert (Hstep : forall o levels is_bid, book_ok o ->
            book_ok (if py_truthy levels
                     then order_book._update_side o levels is_bid else (o, Ok tt)).1).
  { intros o levels is_bid Ho. destruct (py_truthy levels); [|exact Ho].
    apply _update_side_ok. exact Ho. }
  pose proof (Hstep ob asks false Hok) as H1.
  destruct (if py_truthy asks then _ else _) as [ob1 [u1|e1]]; simpl in *; [|exact H1].
  pose proof (Hstep ob1 bids true H1) as H2.
  destruct (if py_truthy bids then _ else _) as [ob2 [u2|e2]]; simpl in *; [|exact H2].
  exact H2.
Qed.


End OrderBookInvariant.

(** ** [orderbook.py]: the invariant of the sides *)

Section OrderbookInvariant.
Context `{FloatParser}.

Lemma half_ok_nil is_bid : half_ok is_bid [].
Proof. split; constructor. Qed.

Lemma orderbook_apply_level_ok is_bid side item side' :
  orderbook.apply_level is_bid side item = Ok side' ->
  half_ok is_bid side -> half_ok is_bid side'.
Proof.
  unfold orderbook.apply_level. intros Happ Hok.
  destruct (orderbook.unpack2 item) as [[price_str qty_str]|e]; simpl in Happ; [|discriminate].
  destruct (py_float price_str) as [price|e]; simpl in Happ; [|discriminate].
  destruct (py_float qty_str) as [qty|e]; simpl in Happ; [|discriminate].
  destruct (Qgtb qty 0) eqn:Hq; [|congruence].
  inversion Happ; subst. destruct Hok as [Hs Hk]. split.
  - apply setitem_ascending. exact Hs.
  - apply (setitem_Forall (fun k v => k == sign_of is_bid * v.1 /\ 0 < v.2)).
    + intros k1 k2 x Heq [Hk1 Hpos]. split; [|exact Hpos]. rewrite <- Heq. exact Hk1.
    + simpl. split; [destruct is_bid; simpl; ring|]. apply Qgtb_true. exact Hq.
    + exact Hk.
Qed.

Lemma orderbook_update_levels_ok is_bid items side :
  half_ok is_bid side -> half_ok is_bid (orderbook.update_levels is_bid side items).1.
Proof.
  revert side. induction items as [|item rest IH]; intros side Hok; simpl.
  - exact Hok.
  - destruct (orderbook.apply_level is_bid side item) as [side'|e] eqn:Happ.
    + apply IH. eapply orderbook_apply_level_ok; eassumption.
    + exact Hok.
Qed.

Lemma rebuild_side_ok is_bid levels :
  half_ok is_bid (orderbook.rebuild_side is_bid levels).1.
Proof.
  unfold orderbook.rebuild_side.
  destruct (py_iter levels) as [items|e]; simpl.
  - apply orderbook_update_levels_ok. apply half_ok_nil.
  - apply half_ok_nil.
Qed.

Lemma orderbook_update_ok now elapsed_ms ob data :
  orderbook_ok ob -> orderbook_ok (orderbook.update now elapsed_ms ob data).1.
Proof.
  intros (Hb & Ha & Hkb & Hka). unfold orderbook.update.
  pose proof (rebuild_side_ok true (dict_get data "bids" (VList []))) as [Hb1 Hb2].
  destruct (orderbook.rebuild_side true _) as [bids' [u|e]]; simpl in *.
  - pose proof (rebuild_side_ok false (dict_get data "asks" (VList []))) as [Ha1 Ha2].
    destruct (orderbook.rebuild_side false _) as [asks' [u'|e']]; simpl in *;
      repeat split; assumption.
  - repeat split; assumption.
Qed.

Lemma orderbook_run_ok updates ob :
  orderbook_ok ob -> orderbook_ok (orderbook_run ob updates).
Proof.
  revert ob. induction updates as [|u rest IH]; intros ob Hok; simpl; [exact Hok|].
  apply IH. apply orderbook_update_ok. exact Hok.
Qed.

Lemma orderbook_init_ok : orderbook_ok orderbook.init.
Proof. repeat split; constructor. Qed.

(** Ascending keys are descending bid prices and ascending ask prices. *)
Lemma bid_prices_descending side :
  ascending (SortedDict.keys side) -> keyed_levels (-1) side -> descending (prices side).
Proof.
  unfold ascending, descending, keyed_levels, prices.
  induction side as [|[k [p q]] tl IH]; simpl; intros Hs Hk; [constructor|].
  inversion Hs as [|? ? Htl Hall]; subst. inversion Hk as [|? ? [Hkp Hq] Hktl]; subst.
  simpl in *. constructor; [apply IH; assumption|].
  clear IH Hs Htl Hk.
  induction tl as [|[k' [p' q']] tl' IH']; simpl; [constructor|].
  inversion Hall; subst. inversion Hktl as [|? ? [Hkp' Hq'] ?]; subst. simpl in *.
  constructor; [lra|]. apply IH'; assumption.
Qed.

Lemma ask_prices_ascending side :
  ascending (SortedDict.keys side) -> keyed_levels 1 side -> ascending (prices side).
Proof.
  unfold ascending, keyed_levels, prices.
  induction side as [|[k [p q]] tl IH]; simpl; intros Hs Hk; [constructor|].
  inversion Hs as [|? ? Htl Hall]; subst. inversion Hk as [|? ? [Hkp Hq] Hktl]; subst.
  simpl in *. constructor; [apply IH; assumption|].
  clear IH Hs Htl Hk.
  induction tl as [|[k' [p' q']] tl' IH']; simpl; [constructor|].
  inversion Hall; subst. inversion Hktl as [|? ? [Hkp' Hq'] ?]; subst. simpl in *.
  constructor; [lra|]. apply IH'; assumption.
Qed.

End OrderbookInvariant.

(** ** [order_book.py]: malformed levels are skipped *)

Section UpdateSide.
Context `{FloatParser}.









End UpdateSide.

(** ** [orderbook.py]: a rejected token aborts the update *)

Section OrderbookRaises.
Context `{FloatParser}.




End OrderbookRaises.

(** ** Claims C1 and C2: the snapshot update *)

Lemma ascending_lookup_lt (l : list Q) (i j : nat) (a b : Q) :
  ascending l -> (i < j)%nat -> l !! i = Some a -> l !! j = Some b -> a < b.
Proof.
  unfold ascending. intros Hs. revert i j.
  induction Hs as [|x tl Htl IH Hall]; intros i j Hij Hi Hj.
  - discriminate.
  - destruct j as [|j]; [lia|]. simpl in Hj.
    destruct i as [|i]; simpl in Hi.
    + inversion Hi; subst.
      rewrite Forall_forall in Hall. apply Hall.
      eapply list_elem_of_lookup_2. exact Hj.
    + apply (IH i j); [lia|assumption..].
Qed.


Lemma side_of_set_side ob is_bid side :
  order_book.side_of (order_book.set_side ob is_bid side) is_bid = side.
Proof. destruct is_bid; reflexivity. Qed.

(** ** What [setitem] stores can be read back *)

Section Stored.
Context {V : Type}.
Implicit Types (d : list (Q * V)) (k : Q) (v : V).





End Stored.

Section StoredLevels.
Context `{FloatParser}.






End StoredLevels.







(** ** Claim C7: the mid price *)

Section MidPrice.
Context `{FloatParser}.

Lemma best_bid_is_highest ob best_bid :
  orderbook_ok ob -> orderbook.get_best_bid ob = Some best_bid ->
  Forall (fun p => p <= best_bid) (prices (orderbook.bids ob)).
Proof.
  intros (Hb & _ & Hkb & _). unfold orderbook.get_best_bid.
  pose proof (bid_prices_descending _ Hb Hkb) as Hdesc.
  destruct (orderbook.bids ob) as [|[k [p q]] tl]; simpl in *; [discriminate|].
  intros Hbest. inversion Hbest; subst.
  inversion Hkb as [|? ? [Hk _] _]; subst. simpl in Hk.
  inversion Hdesc as [|? ? _ Hall]; subst.
  constructor; [lra|].
  eapply Forall_impl; [exact Hall|]. intros p' Hp'. simpl in Hp'. lra.
Qed.

Lemma best_ask_is_lowest ob best_ask :
  orderbook_ok ob -> orderbook.get_best_ask ob = Some best_ask ->
  Forall (fun p => best_ask <= p) (prices (orderbook.asks ob)).
Proof.
  intros (_ & Ha & _ & Hka). unfold orderbook.get_best_ask.
  pose proof (ask_prices_ascending _ Ha Hka) as Hasc.
  destruct (orderbook.asks ob) as [|[k [p q]] tl]; simpl in *; [discriminate|].
  intros Hbest. inversion Hbest; subst.
  inversion Hka as [|? ? [Hk _] _]; subst. simpl in Hk.
  inversion Hasc as [|? ? _ Hall]; subst.
  constructor; [lra|].
  eapply Forall_impl; [exact Hall|]. intros p' Hp'. simpl in Hp'. lra.
Qed.

Lemma get_mid_price_after_update now ob data ob' ts :
  order_book.update now ob data = (ob', Ok ts) ->
  (order_book.bids ob' = [] \/ order_book.asks ob' = [] -> order_book.get_mid_price ob' = 0)
  /\ (forall best_bid qb best_ask qa,
         order_book.best_bid_item ob' = Some (best_bid, qb) ->
         order_book.best_ask_item ob' = Some (best_ask, qa) ->
         ~ best_bid == 0 -> ~ best_ask == 0 ->
         order_book.get_mid_price ob' == (best_bid + best_ask) / 2).
Proof.
  unfold order_book.update. intros Hup.
  destruct (if py_truthy (dict_get data "asks" (VList [])) then _ else _)
    as [ob1 [u1|e1]]; [|discriminate].
  destruct (if py_truthy (dict_get data "bids" (VList [])) then _ else _)
    as [ob2 [u2|e2]]; [|discriminate].
  inversion Hup; subst; clear Hup.
  unfold order_book.get_mid_price, order_book.unusable, order_book.finish_update,
    order_book._calculate_mid_price, order_book.compute_mid,
    order_book.best_bid_item, order_book.best_ask_item. simpl.
  split.
  - intros [Hb|Ha]; [rewrite Hb|rewrite Ha]; simpl; [reflexivity|].
    rewrite orb_true_r. reflexivity.
  - intros best_bid qb best_ask qa Hbb Hba Hnb Hna.
    rewrite Hbb, Hba.
    assert (Hne : forall side x, SortedDict.peek_last side = Some x \/
                                 SortedDict.peek_first side = Some x ->
                                 order_book.empty_side side = false).
    { intros side x [Hl|Hf]; destruct side; simpl in *; try discriminate; reflexivity. }
    rewrite (Hne _ _ (or_introl Hbb)), (Hne _ _ (or_intror Hba)). simpl.
    assert (Htb : q_truthy best_bid = true).
    { unfold q_truthy. apply negb_true_iff.
      destruct (Qeq_bool best_bid 0) eqn:E; [|reflexivity].
      apply Qeq_bool_iff in E. contradiction. }
    assert (Hta : q_truthy best_ask = true).
    { unfold q_truthy. apply negb_true_iff.
      destruct (Qeq_bool best_ask 0) eqn:E; [|reflexivity].
      apply Qeq_bool_iff in E. contradiction. }
    rewrite Htb, Hta. simpl.
    unfold q_truthy. destruct (Qeq_bool ((best_bid + best_ask) / 2) 0) eqn:E; simpl.
    + apply Qeq_bool_iff in E. symmetry. exact E.
    + reflexivity.
Qed.

End MidPrice.

(** C7 (amended).  In [orderbook.py], [get_mid_price] returns [None] when
    the bid side or the ask side is empty and [(best_bid + best_ask) / 2]
    when both are non-empty, where on a book built by updates the best bid
    is the highest bid price and the best ask the lowest ask price.  In
    [order_book.py], the book of the simulation engine, [get_mid_price]
    returns the number 0 before the first update and, after an update that
    completes, the number 0 when a side is empty and
    [(best_bid + best_ask) / 2] when both sides are non-empty and both best
    prices are non-zero. *)
Theorem C7_mid_price `{FloatParser} :
  (forall ob : orderbook.OrderBook,
      orderbook.bids ob = [] \/ orderbook.asks ob = [] ->
      orderbook.get_mid_price ob = None)
  /\ (forall (updates : list (Q * Q * gmap string pyval)) (best_bid best_ask : Q),
         let ob := orderbook_run orderbook.init updates in
         orderbook.get_best_bid ob = Some best_bid ->
         orderbook.get_best_ask ob = Some best_ask ->
         orderbook.get_mid_price ob = Some ((best_bid + best_ask) / 2) /\
         Forall (fun p => p <= best_bid) (prices (orderbook.bids ob)) /\
         Forall (fun p => best_ask <= p) (prices (orderbook.asks ob)))
  /\ (forall (symbol : pyval) (max_depth : nat),
         order_book.get_mid_price (order_book.init symbol max_depth) = 0)
  /\ (forall (now : Q) (ob ob' : order_book.OrderBook) (data : gmap string pyval) (ts : pyval),
         order_book.update now ob data = (ob', Ok ts) ->
         (order_book.bids ob' = [] \/ order_book.asks ob' = [] ->
          order_book.get_mid_price ob' = 0)
         /\ (forall best_bid qb best_ask qa,
                order_book.best_bid_item ob' = Some (best_bid, qb) ->
                order_book.best_ask_item ob' = Some (best_ask, qa) ->
                ~ best_bid == 0 -> ~ best_ask == 0 ->
                order_book.get_mid_price ob' == (best_bid + best_ask) / 2)).
Proof.
  split; [|split; [|split]].
  - intros ob [Hb|Ha]; unfold orderbook.get_mid_price, orderbook.get_best_bid,
      orderbook.get_best_ask; [rewrite Hb|rewrite Ha]; simpl; [reflexivity|].
    destruct (SortedDict.keys (orderbook.bids ob)); reflexivity.
  - intros updates best_bid best_ask ob Hbb Hba.
    assert (Hok : orderbook_ok ob) by (apply orderbook_run_ok, orderbook_init_ok).
    split; [|split].
    + unfold orderbook.get_mid_price. rewrite Hbb, Hba. reflexivity.
    + apply best_bid_is_highest; assumption.
    + apply best_ask_is_lowest; assumption.
  - reflexivity.
  - intros now ob ob' data ts Hup. eapply get_mid_price_after_update. exact Hup.
Qed.

Lemma C7_mid_price_witness :
  let book := orderbook_run (H := decimal_parser) orderbook.init
                [(0, 0, snapshot [token_pair "100" "2"] [token_pair "101" "3"])] in
  let data := snapshot [token_pair "100" "2"] [token_pair "101" "3"] in
  let ob' := (order_book.update (H := decimal_parser) 0
                (order_book.init (VStr "BTC-USDT") 20) data).1 in
  orderbook.get_mid_price orderbook.init = None /\
  orderbook.get_mid_price book = Some ((100 + 101) / 2) /\
  order_book.get_mid_price ob' == (100 + 101) / 2.
Proof.
  cbv zeta. split; [|split].
  - apply (proj1 (C7_mid_price (H := decimal_parser))). left. reflexivity.
  - apply (proj1 (proj2 (C7_mid_price (H := decimal_parser)))
             [(0, 0, snapshot [token_pair "100" "2"] [token_pair "101" "3"])] 100 101);
      reflexivity.
  - apply (proj2 (proj2 (proj2 (proj2 (C7_mid_price (H := decimal_parser))))
             0 (order_book.init (VStr "BTC-USDT") 20) _
             (snapshot [token_pair "100" "2"] [token_pair "101" "3"]) (VNum 0)
             eq_refl) 100 2 101 3); try reflexivity; intros Hz; vm_compute in Hz;
      discriminate.
Defined.

(** C7, as stated, fails on [order_book.py]: with a bid side and an empty
    ask side [get_mid_price] returns the number 0; only the attribute
    [mid_price] is [None]. *)
Lemma C7_counterexample_order_book_returns_zero :
  let ob := (order_book.update (H := decimal_parser) 0
               (order_book.init (VStr "BTC-USDT") 20)
               (snapshot [token_pair "100" "2"] [])).1 in
  order_book.asks ob = [] /\
  order_book.mid_price ob = None /\
  order_book.get_mid_price ob = 0.
Proof. vm_compute. repeat split. Qed.

(** ** Claims C4 and C5: walking the book *)


























(** ** Claims C6, C9 and C10: the cost models *)

Ltac unfold_bind := unfold mbind, result_bind, rbind, mret, result_ret in *.

Section MakerTaker.
Context `{MathLib}.


End MakerTaker.

Section Fees.

(** With string arguments the two table lookups never fail: every
    exchange ends up on the OKX table, every tier on [effective_rates]. *)
Lemma calculate_fees_rates (exchange fee_tier : string) (order_type quantity_usd : pyval)
  (maker_taker_proportion : option (gmap string pyval)) :
  fee_model.calculate_fees (VStr exchange) (VStr fee_tier) order_type quantity_usd
    maker_taker_proportion
  = (pr ← fee_model.proportions order_type maker_taker_proportion;
     quantity ← as_num quantity_usd;
     let rates := effective_rates fee_tier in
     Ok {| fee_model.maker_fee_usd := quantity * pr.1 * fee_model.maker rates;
           fee_model.taker_fee_usd := quantity * pr.2 * fee_model.taker rates;
           fee_model.total_fee_usd :=
             quantity * pr.1 * fee_model.maker rates
             + quantity * pr.2 * fee_model.taker rates;
           fee_model.maker_fee_rate := fee_model.maker rates;
           fee_model.taker_fee_rate := fee_model.taker rates;
           fee_model.maker_proportion := pr.1;
           fee_model.taker_proportion := pr.2 |}).
Proof.
  unfold fee_model.calculate_fees, fee_model.key_in, fee_model.getitem,
    fee_model.exchange_fee_tiers, effective_rates.
  unfold_bind.
  assert (Hex : match
                  (if bool_decide (is_Some
                        (({["OKX" := fee_model.OKX_FEE_TIERS]} : gmap string _) !! exchange))
                   then VStr exchange else VStr "OKX")
                with
                | VStr s =>
                    match ({["OKX" := fee_model.OKX_FEE_TIERS]} : gmap string _) !! s with
                    | Some v => Ok v
                    | None => Raise KeyError
                    end
                | _ => Raise KeyError
                end = Ok fee_model.OKX_FEE_TIERS).
  { destruct (({["OKX" := fee_model.OKX_FEE_TIERS]} : gmap string _) !! exchange)
      as [tiers|] eqn:E.
    - rewrite bool_decide_eq_true_2 by eauto. rewrite E.
      apply lookup_singleton_Some in E as [_ <-]. reflexivity.
    - rewrite bool_decide_eq_false_2 by (intros [x Hx]; discriminate).
      rewrite lookup_singleton_eq. reflexivity. }
  rewrite Hex. clear Hex.
  destruct (fee_model.OKX_FEE_TIERS !! fee_tier) as [rates|] eqn:E.
  - rewrite bool_decide_eq_true_2 by eauto. rewrite E. simpl.
    destruct (fee_model.proportions order_type maker_taker_proportion) as [[mp tp]|];
      reflexivity.
  - rewrite bool_decide_eq_false_2 by (intros [x Hx]; discriminate).
    replace (fee_model.OKX_FEE_TIERS !! "Tier 1")
      with (Some (fee_model.mkRates (8 # 10000) (10 # 10000))) by reflexivity.
    simpl.
    destruct (fee_model.proportions order_type maker_taker_proportion) as [[mp tp]|];
      reflexivity.
Qed.

End Fees.








(** ** Claim C8: the reconnect loop *)











(** ** Claim C3: the tick pipeline *)

Section ProcessTick.
Context `{FloatParser} `{MathLib}.





Lemma run_models_begin_tick self current_time ob features :
  simulation_engine.run_models (simulation_engine.begin_tick self current_time ob) features
  = simulation_engine.run_models self features.
Proof. reflexivity. Qed.





End ProcessTick.




(* ===================================================================== *)
(** * Further properties *)
(* ===================================================================== *)

(** ** [order_book.py]: trimming, snapshots, depth *)






Section MoreOrderBook.
Context `{FloatParser}.



Lemma other_side_update_side ob levels is_bid :
  order_book.side_of (order_book._update_side ob levels is_bid).1 (negb is_bid)
  = order_book.side_of ob (negb is_bid).
Proof.
  unfold order_book._update_side.
  destruct (py_iter levels) as [ls|e];
    [destruct (order_book.update_levels [] ls) as [side [u|e]]|];
    destruct is_bid; reflexivity.
Qed.

(** X2.  A snapshot that does not provide a side (the key is missing, or
    its value is empty) leaves that side of the book as it was, whatever
    happens to the other side: stale levels stay in the book. *)
Theorem X2_update_keeps_side_not_provided (now : Q) (ob : order_book.OrderBook)
  (data : gmap string pyval) (is_bid : bool) :
  py_truthy (dict_get data (if is_bid then "bids" else "asks") (VList [])) = false ->
  order_book.side_of (order_book.update now ob data).1 is_bid = order_book.side_of ob is_bid.
Proof.
  intros Hfalse. unfold order_book.update.
  destruct is_bid.
  - rewrite Hfalse.
    destruct (py_truthy (dict_get data "asks" (VList []))) eqn:Ha.
    + pose proof (other_side_update_side ob (dict_get data "asks" (VList [])) false) as Hsame.
      destruct (order_book._update_side ob (dict_get data "asks" (VList [])) false)
        as [ob1 [u|e]]; simpl in *; exact Hsame.
    + reflexivity.
  - rewrite Hfalse.
    destruct (py_truthy (dict_get data "bids" (VList []))) eqn:Hb.
    + pose proof (other_side_update_side ob (dict_get data "bids" (VList [])) true) as Hsame.
      destruct (order_book._update_side ob (dict_get data "bids" (VList [])) true)
        as [ob2 [u|e]]; simpl in *; exact Hsame.
    + reflexivity.
Qed.

(** X3.  A side that the snapshot provides is rebuilt from the snapshot
    alone: [_update_side] stores what it would store in a new book of the
    same [max_depth], so no level of the previous snapshot survives. *)
Theorem X3_update_side_replaces (ob : order_book.OrderBook) (levels : pyval) (is_bid : bool) :
  order_book.side_of (order_book._update_side ob levels is_bid).1 is_bid
  = order_book.side_of
      (order_book._update_side
         (order_book.init (order_book.symbol ob) (order_book.max_depth ob)) levels is_bid).1
      is_bid.
Proof.
  unfold order_book._update_side.
  destruct (py_iter levels) as [ls|e]; simpl.
  - destruct (order_book.update_levels [] ls) as [side [u|e]]; simpl;
      rewrite !side_of_set_side; reflexivity.
  - rewrite !side_of_set_side. reflexivity.
Qed.

(** X4.  [get_depth] takes the first [price_levels] items of each side; the
    bid side iterates from the lowest price, so when it holds more levels
    than asked for, every returned bid is priced below the best bid. *)
Theorem X4_get_depth_returns_lowest_bids (ob : order_book.OrderBook) (price_levels : nat)
  (best : Q * Q) :
  book_ok ob ->
  (price_levels < List.length (order_book.bids ob))%nat ->
  order_book.best_bid_item ob = Some best ->
  List.length (order_book.get_depth ob price_levels).2 = price_levels /\
  Forall (fun level => level.1 < best.1) (order_book.get_depth ob price_levels).2.
Proof.
  intros [_ [Hsorted _]] Hlen Hbest. unfold order_book.get_depth. simpl.
  split; [rewrite length_take; lia|].
  apply Forall_forall. intros level Hin.
  apply list_elem_of_lookup in Hin as [i Hi].
  apply lookup_take_Some in Hi as [Hi Hlt].
  unfold order_book.best_bid_item, SortedDict.peek_last in Hbest.
  rewrite last_lookup in Hbest.
  apply (ascending_lookup_lt (SortedDict.keys (order_book.bids ob)) i
           (pred (List.length (order_book.bids ob)))); [exact Hsorted|lia| |].
  - unfold SortedDict.keys. rewrite list_lookup_fmap, Hi. reflexivity.
  - unfold SortedDict.keys. rewrite list_lookup_fmap, Hbest. reflexivity.
Qed.

Lemma update_refreshed now ob data ob' ts :
  order_book.update now ob data = (ob', Ok ts) -> refreshed ob'.
Proof.
  unfold order_book.update. intros Hup.
  destruct (if py_truthy (dict_get data "asks" (VList [])) then _ else _)
    as [ob1 [u1|e1]]; [|discriminate].
  destruct (if py_truthy (dict_get data "bids" (VList [])) then _ else _)
    as [ob2 [u2|e2]]; [|discriminate].
  inversion Hup; subst. split; reflexivity.
Qed.

End MoreOrderBook.


Lemma X2_update_keeps_side_not_provided_witness :
  let ob := (order_book.update (H := decimal_parser) 0 (order_book.init (VStr "BTC-USDT") 5)
               (snapshot [token_pair "99" "1"] [token_pair "101" "2"])).1 in
  order_book.side_of
    (order_book.update (H := decimal_parser) 1 ob (snapshot [token_pair "98" "4"] [])).1 false
  = order_book.side_of ob false.
Proof.
  apply (X2_update_keeps_side_not_provided (H := decimal_parser)).
  reflexivity.
Defined.

Lemma X4_get_depth_returns_lowest_bids_witness :
  let ob := (order_book.update (H := decimal_parser) 0 (order_book.init (VStr "BTC-USDT") 5)
               (snapshot [token_pair "99" "1"; token_pair "100" "3"; token_pair "98" "2"]
                         [token_pair "101" "2"])).1 in
  List.length (order_book.get_depth ob 2).2 = 2%nat /\
  Forall (fun level => level.1 < 100) (order_book.get_depth ob 2).2.
Proof.
  cbv zeta.
  apply (X4_get_depth_returns_lowest_bids
           (order_book.update (H := decimal_parser) 0 (order_book.init (VStr "BTC-USDT") 5)
              (snapshot [token_pair "99" "1"; token_pair "100" "3"; token_pair "98" "2"]
                        [token_pair "101" "2"])).1 2 (100, 3)).
  - apply (update_ok (H := decimal_parser)). split; apply side_ok_nil.
  - vm_compute. lia.
  - vm_compute. reflexivity.
Defined.

(** ** [order_book.py]: price impact, features, market depth *)








(** *** Volumes *)

Lemma sum_qty_nonneg items : positive_quantities items -> 0 <= order_book.sum_qty items.
Proof.
  induction 1 as [|[p q] rest Hq Hrest IH]; simpl in *; lra.
Qed.

Lemma sum_qty_pos items :
  positive_quantities items -> items <> [] -> 0 < order_book.sum_qty items.
Proof.
  intros Hpos Hne. destruct Hpos as [|[p q] rest Hq Hrest]; [congruence|].
  simpl in *. pose proof (sum_qty_nonneg rest Hrest). lra.
Qed.


Lemma positive_quantities_take n items :
  positive_quantities items -> positive_quantities (take n items).
Proof. apply Forall_take. Qed.











Ltac skip_inserts :=
  repeat (rewrite lookup_insert_ne by discriminate); rewrite lookup_insert_eq.




Lemma sum_qty_filter_mono (f g : Q * Q -> bool) items :
  positive_quantities items ->
  (forall item, f item = true -> g item = true) ->
  order_book.sum_qty (List.filter f items) <= order_book.sum_qty (List.filter g items).
Proof.
  intros Hpos Himp. induction Hpos as [|[p q] rest Hq Hrest IH]; simpl; [lra|].
  simpl in Hq.
  destruct (f (p, q)) eqn:Ef.
  - rewrite (Himp _ Ef). simpl. lra.
  - destruct (g (p, q)); simpl; lra.
Qed.

Lemma sum_qty_filter_le (f : Q * Q -> bool) items :
  positive_quantities items ->
  order_book.sum_qty (List.filter f items) <= order_book.sum_qty items.
Proof.
  intros Hpos. induction Hpos as [|[p q] rest Hq Hrest IH]; simpl; [lra|].
  simpl in Hq. destruct (f (p, q)); simpl; lra.
Qed.

(** X7.  [calculate_market_depth] on a book with a positive mid price: the
    bid and ask volumes counted within a price range grow with the range
    and never exceed the volume of the side, and the reported mid price is
    the one of [get_mid_price]. *)
Theorem X7_market_depth_grows_with_range (ob : order_book.OrderBook) (r1 r2 : Q) :
  book_ok ob ->
  0 < order_book.get_mid_price ob ->
  r1 <= r2 ->
  let d1 := order_book.calculate_market_depth ob r1 in
  let d2 := order_book.calculate_market_depth ob r2 in
  order_book.bid_volume d1 <= order_book.bid_volume d2 /\
  order_book.bid_volume d2 <= order_book.sum_qty (order_book.bids ob) /\
  order_book.ask_volume d1 <= order_book.ask_volume d2 /\
  order_book.ask_volume d2 <= order_book.sum_qty (order_book.asks ob) /\
  order_book.depth_mid_price d1 = order_book.get_mid_price ob /\
  order_book.depth_mid_price d2 = order_book.get_mid_price ob.
Proof.
  intros [[_ Hasks] [_ Hbids]] Hmid Hr d1 d2.
  unfold d1, d2, order_book.calculate_market_depth.
  destruct (order_book.unusable ob) eqn:Hus.
  { unfold order_book.get_mid_price in Hmid. rewrite Hus in Hmid. lra. }
  rewrite Qeq_bool_neg by lra. cbn [order_book.bid_volume order_book.ask_volume
                                    order_book.depth_mid_price].
  set (m := order_book.get_mid_price ob) in *.
  assert (Hscale : m * (r1 / 100) <= m * (r2 / 100)).
  { apply Qmult_le_l; [exact Hmid|]. apply Qmult_le_compat_r; [exact Hr|].
    apply Qlt_le_weak. apply Qinv_lt_0_compat. reflexivity. }
  split; [|split; [|split; [|split; [|split]]]]; try reflexivity.
  - apply sum_qty_filter_mono; [exact Hbids|].
    intros item Hin. apply Qle_bool_iff in Hin. apply Qle_bool_iff. lra.
  - apply sum_qty_filter_le. exact Hbids.
  - apply sum_qty_filter_mono; [exact Hasks|].
    intros item Hin. apply Qle_bool_iff in Hin. apply Qle_bool_iff. lra.
  - apply sum_qty_filter_le. exact Hasks.
Qed.

Lemma X7_market_depth_grows_with_range_witness :
  let ob := (order_book.update (H := decimal_parser) 0 (order_book.init (VStr "BTC-USDT") 5)
               (snapshot [token_pair "99" "1"; token_pair "98" "2"]
                         [token_pair "101" "2"; token_pair "102" "5"])).1 in
  let d1 := order_book.calculate_market_depth ob 1 in
  let d2 := order_book.calculate_market_depth ob 2 in
  order_book.bid_volume d1 <= order_book.bid_volume d2 /\
  order_book.bid_volume d2 <= order_book.sum_qty (order_book.bids ob) /\
  order_book.ask_volume d1 <= order_book.ask_volume d2 /\
  order_book.ask_volume d2 <= order_book.sum_qty (order_book.asks ob) /\
  order_book.depth_mid_price d1 = order_book.get_mid_price ob /\
  order_book.depth_mid_price d2 = order_book.get_mid_price ob.
Proof.
  cbv zeta.
  apply (X7_market_depth_grows_with_range
           (order_book.update (H := decimal_parser) 0 (order_book.init (VStr "BTC-USDT") 5)
              (snapshot [token_pair "99" "1"; token_pair "98" "2"]
                        [token_pair "101" "2"; token_pair "102" "5"])).1 1 2).
  - apply (update_ok (H := decimal_parser)). split; apply side_ok_nil.
  - vm_compute. reflexivity.
  - vm_compute. discriminate.
Defined.

(** ** [orderbook.py]: snapshots, depth, market orders, features *)

Section MoreOrderbook.
Context `{FloatParser}.

(** X8.  [update] of [orderbook.py] has no memory: when it completes, the
    book it leaves is determined by the snapshot and the clock alone, so
    applying the snapshot to any other book gives the same result. *)
Theorem X8_orderbook_update_has_no_memory (now elapsed_ms : Q) (ob1 ob2 : orderbook.OrderBook)
  (data : gmap string pyval) (t : Q) :
  (orderbook.update now elapsed_ms ob1 data).2 = Ok t ->
  orderbook.update now elapsed_ms ob2 data = orderbook.update now elapsed_ms ob1 data.
Proof.
  unfold orderbook.update.
  destruct (orderbook.rebuild_side true (dict_get data "bids" (VList []))) as [bids' [u|e]];
    [|discriminate].
  destruct (orderbook.rebuild_side false (dict_get data "asks" (VList []))) as [asks' [u'|e]];
    [|discriminate].
  reflexivity.
Qed.

End MoreOrderbook.

Lemma X8_orderbook_update_has_no_memory_witness :
  let data := snapshot [token_pair "99" "1"] [token_pair "101" "2"] in
  let old := (orderbook.update (H := decimal_parser) 0 0 orderbook.init
                (snapshot [token_pair "90" "5"] [token_pair "95" "5"])).1 in
  orderbook.update (H := decimal_parser) 1 0 old data
  = orderbook.update (H := decimal_parser) 1 0 orderbook.init data.
Proof.
  apply (X8_orderbook_update_has_no_memory (H := decimal_parser) 1 0 orderbook.init _ _ 0).
  reflexivity.
Defined.

Lemma descending_take (n : nat) (l : list Q) : descending l -> descending (take n l).
Proof.
  unfold descending. intros Hs. rewrite <- (take_drop n l) in Hs.
  apply StronglySorted_app_1_l in Hs. exact Hs.
Qed.

Lemma ascending_take (n : nat) (l : list Q) : ascending l -> ascending (take n l).
Proof.
  unfold ascending. intros Hs. rewrite <- (take_drop n l) in Hs.
  apply StronglySorted_app_1_l in Hs. exact Hs.
Qed.

Lemma values_prices (side : list (Q * (Q * Q))) :
  map fst (SortedDict.values side) = prices side.
Proof.
  unfold SortedDict.values, prices. rewrite map_map. reflexivity.
Qed.

Lemma depth_prices (n : nat) (side : list (Q * (Q * Q))) :
  map fst (take n (SortedDict.values side)) = take n (prices side).
Proof.
  rewrite <- values_prices. unfold SortedDict.values.
  rewrite <- !fmap_take. reflexivity.
Qed.

(** X9.  [get_depth] of [orderbook.py] lists the best levels first: the
    returned bids have strictly descending prices and start at the best
    bid, the returned asks have strictly ascending prices and start at the
    best ask. *)
Theorem X9_orderbook_get_depth_best_first (ob : orderbook.OrderBook) (levels : nat) :
  orderbook_ok ob ->
  descending (map fst (orderbook.get_depth ob levels).1) /\
  ascending (map fst (orderbook.get_depth ob levels).2) /\
  ((0 < levels)%nat ->
   (forall best, orderbook.get_best_bid ob = Some best ->
                 exists price qty, head (orderbook.get_depth ob levels).1 = Some (price, qty) /\
                                   price == best) /\
   (forall best, orderbook.get_best_ask ob = Some best ->
                 exists price qty, head (orderbook.get_depth ob levels).2 = Some (price, qty) /\
                                   price == best)).
Proof.
  intros (Hb & Ha & Hkb & Hka). unfold orderbook.get_depth. cbn [fst snd].
  rewrite !depth_prices.
  split; [apply descending_take, bid_prices_descending; assumption|].
  split; [apply ascending_take, ask_prices_ascending; assumption|].
  intros Hlevels. destruct levels as [|n]; [lia|]. split.
  - intros best. unfold orderbook.get_best_bid.
    destruct (orderbook.bids ob) as [|[k [p q]] tl]; simpl; [discriminate|].
    intros Hbest. inversion Hbest; subst. exists p, q. split; [reflexivity|].
    inversion Hkb as [|? ? [Hkey _] _]; subst. simpl in Hkey. lra.
  - intros best. unfold orderbook.get_best_ask.
    destruct (orderbook.asks ob) as [|[k [p q]] tl]; simpl; [discriminate|].
    intros Hbest. inversion Hbest; subst. exists p, q. split; [reflexivity|].
    inversion Hka as [|? ? [Hkey _] _]; subst. simpl in Hkey. lra.
Qed.

Lemma X9_orderbook_get_depth_best_first_witness :
  let ob := orderbook_run (H := decimal_parser) orderbook.init
              [(0, 0, snapshot [token_pair "99" "1"; token_pair "100" "3"; token_pair "98" "2"]
                               [token_pair "102" "1"; token_pair "101" "2"])] in
  descending (map fst (orderbook.get_depth ob 2).1) /\
  ascending (map fst (orderbook.get_depth ob 2).2) /\
  ((0 < 2)%nat ->
   (forall best, orderbook.get_best_bid ob = Some best ->
                 exists price qty, head (orderbook.get_depth ob 2).1 = Some (price, qty) /\
                                   price == best) /\
   (forall best, orderbook.get_best_ask ob = Some best ->
                 exists price qty, head (orderbook.get_depth ob 2).2 = Some (price, qty) /\
                                   price == best)).
Proof.
  cbv zeta. apply X9_orderbook_get_depth_best_first.
  apply (orderbook_run_ok (H := decimal_parser)). apply orderbook_init_ok.
Defined.

(** *** Market orders *)








(** *** Features *)

Lemma values_positive sign side :
  keyed_levels sign side -> positive_quantities (SortedDict.values side).
Proof.
  unfold keyed_levels, positive_quantities, SortedDict.values. intros Hk.
  apply Forall_fmap. eapply Forall_impl; [exact Hk|]. intros entry [_ Hq]. exact Hq.
Qed.

Lemma weighted_price_ok items :
  positive_quantities items ->
  orderbook.weighted_price items
  = Ok (match items with
        | [] => VNone
        | _ => VNum (orderbook.sum_notional items / order_book.sum_qty items)
        end).
Proof.
  intros Hpos. unfold orderbook.weighted_price.
  destruct items as [|item rest]; [reflexivity|].
  rewrite Qeq_bool_neg; [reflexivity|].
  pose proof (sum_qty_pos (item :: rest) Hpos ltac:(discriminate)). lra.
Qed.


Lemma imbalance_range (b a : Q) :
  0 <= b -> 0 <= a ->
  -1 <= (if Qgtb (b + a) 0 then (b - a) / (b + a) else 0) /\
  (if Qgtb (b + a) 0 then (b - a) / (b + a) else 0) <= 1.
Proof.
  intros Hb Ha. destruct (Qgtb (b + a) 0) eqn:Hg; [|lra].
  apply Qgtb_true in Hg. split.
  - apply Qle_shift_div_l; lra.
  - apply Qle_shift_div_r; lra.
Qed.

Lemma depth_from_mono b1 b2 items :
  positive_quantities items -> b2 <= b1 ->
  orderbook.depth_from b1 items <= orderbook.depth_from b2 items.
Proof.
  intros Hpos Hle. apply sum_qty_filter_mono; [exact Hpos|].
  intros item Hin. apply Qle_bool_iff in Hin. apply Qle_bool_iff. lra.
Qed.

Lemma depth_up_to_mono b1 b2 items :
  positive_quantities items -> b1 <= b2 ->
  orderbook.depth_up_to b1 items <= orderbook.depth_up_to b2 items.
Proof.
  intros Hpos Hle. apply sum_qty_filter_mono; [exact Hpos|].
  intros item Hin. apply Qle_bool_iff in Hin. apply Qle_bool_iff. lra.
Qed.

Lemma positive_quantities_filter (f : Q * Q -> bool) items :
  positive_quantities items -> positive_quantities (List.filter f items).
Proof.
  intros Hpos. induction Hpos as [|item rest Hq Hrest IH]; simpl; [constructor|].
  destruct (f item); [constructor; assumption|assumption].
Qed.

(** X11.  On a book that satisfies the invariant of [orderbook.py],
    [get_order_book_features] does not raise; its volume imbalance lies
    between -1 and 1; and with a non-negative mid price the depth within
    1 %, 2 % and 5 % of the mid price is non-negative and grows with the
    band, up to the volume of the listed levels. *)
Theorem X11_orderbook_features_bounds (ob : orderbook.OrderBook) :
  orderbook_ok ob ->
  exists f,
    orderbook.get_order_book_features ob = Ok f /\
    (exists v, f !! "volume_imbalance" = Some (VNum v) /\ -1 <= v /\ v <= 1) /\
    (forall m, orderbook.get_mid_price ob = Some m -> 0 <= m ->
       exists b1 b2 b5 bv a1 a2 a5 av,
         f !! "bid_depth_1pct" = Some (VNum b1) /\ f !! "bid_depth_2pct" = Some (VNum b2) /\
         f !! "bid_depth_5pct" = Some (VNum b5) /\ f !! "bid_volume" = Some (VNum bv) /\
         f !! "ask_depth_1pct" = Some (VNum a1) /\ f !! "ask_depth_2pct" = Some (VNum a2) /\
         f !! "ask_depth_5pct" = Some (VNum a5) /\ f !! "ask_volume" = Some (VNum av) /\
         0 <= b1 /\ b1 <= b2 /\ b2 <= b5 /\ b5 <= bv /\
         0 <= a1 /\ a1 <= a2 /\ a2 <= a5 /\ a5 <= av).
Proof.
  intros (_ & _ & Hkb & Hka).
  unfold orderbook.get_order_book_features, orderbook.get_depth.
  set (bids := take 10 (SortedDict.values (orderbook.bids ob))).
  set (asks := take 10 (SortedDict.values (orderbook.asks ob))).
  assert (Hpb : positive_quantities bids).
  { apply positive_quantities_take. eapply values_positive. exact Hkb. }
  assert (Hpa : positive_quantities asks).
  { apply positive_quantities_take. eapply values_positive. exact Hka. }
  rewrite (weighted_price_ok bids Hpb), (weighted_price_ok asks Hpa).
  unfold mbind, result_bind, rbind.
  pose proof (sum_qty_nonneg bids Hpb) as Hbv.
  pose proof (sum_qty_nonneg asks Hpa) as Hav.
  destruct (orderbook.get_mid_price ob) as [mid|] eqn:Hmid.
  - eexists. split; [reflexivity|]. split.
    + eexists. split; [skip_inserts; reflexivity|]. apply imbalance_range; assumption.
    + intros m Hm Hnn. inversion Hm; subst m. do 8 eexists.
      split; [skip_inserts; reflexivity|]. split; [skip_inserts; reflexivity|].
      split; [skip_inserts; reflexivity|]. split; [skip_inserts; reflexivity|].
      split; [skip_inserts; reflexivity|]. split; [skip_inserts; reflexivity|].
      split; [skip_inserts; reflexivity|]. split; [skip_inserts; reflexivity|].
      split; [apply sum_qty_nonneg, positive_quantities_filter; exact Hpb|].
      split; [apply depth_from_mono; [exact Hpb|lra]|].
      split; [apply depth_from_mono; [exact Hpb|lra]|].
      split; [apply sum_qty_filter_le; exact Hpb|].
      split; [apply sum_qty_nonneg, positive_quantities_filter; exact Hpa|].
      split; [apply depth_up_to_mono; [exact Hpa|lra]|].
      split; [apply depth_up_to_mono; [exact Hpa|lra]|].
      apply sum_qty_filter_le; exact Hpa.
  - eexists. split; [reflexivity|]. split.
    + eexists. split; [skip_inserts; reflexivity|]. apply imbalance_range; assumption.
    + intros m Hm. discriminate Hm.
Qed.

Lemma X11_orderbook_features_bounds_witness :
  let ob := orderbook_run (H := decimal_parser) orderbook.init
              [(0, 0, snapshot [token_pair "99" "1"; token_pair "98" "2"]
                               [token_pair "101" "2"; token_pair "102" "1"])] in
  exists f,
    orderbook.get_order_book_features ob = Ok f /\
    (exists v, f !! "volume_imbalance" = Some (VNum v) /\ -1 <= v /\ v <= 1) /\
    (forall m, orderbook.get_mid_price ob = Some m -> 0 <= m ->
       exists b1 b2 b5 bv a1 a2 a5 av,
         f !! "bid_depth_1pct" = Some (VNum b1) /\ f !! "bid_depth_2pct" = Some (VNum b2) /\
         f !! "bid_depth_5pct" = Some (VNum b5) /\ f !! "bid_volume" = Some (VNum bv) /\
         f !! "ask_depth_1pct" = Some (VNum a1) /\ f !! "ask_depth_2pct" = Some (VNum a2) /\
         f !! "ask_depth_5pct" = Some (VNum a5) /\ f !! "ask_volume" = Some (VNum av) /\
         0 <= b1 /\ b1 <= b2 /\ b2 <= b5 /\ b5 <= bv /\
         0 <= a1 /\ a1 <= a2 /\ a2 <= a5 /\ a5 <= av).
Proof.
  cbv zeta. apply X11_orderbook_features_bounds.
  apply (orderbook_run_ok (H := decimal_parser)). apply orderbook_init_ok.
Defined.






(** ** [fee_model.py] *)

Lemma rates_ordered (fee_tier : string) :
  0 <= fee_model.maker (effective_rates fee_tier) /\
  fee_model.maker (effective_rates fee_tier) <= fee_model.taker (effective_rates fee_tier).
Proof.
  unfold effective_rates.
  destruct (fee_model.OKX_FEE_TIERS !! fee_tier) as [rates|] eqn:E; simpl; [|split; lra].
  unfold fee_model.OKX_FEE_TIERS in E. apply elem_of_list_to_map_2 in E.
  repeat (apply elem_of_cons in E as [E|E]; [inversion E; subst; simpl; split; lra|]).
  apply elem_of_nil in E. contradiction.
Qed.

(** X13.  With non-negative maker and taker entries that sum to a positive
    value and a non-negative quantity, the total fee lies between the fee
    of an all-maker order and the fee of an all-taker order: in every tier
    of the table the maker rate is non-negative and at most the taker
    rate. *)
Theorem X13_fee_between_maker_and_taker (exchange fee_tier : string) (order_type : pyval)
  (quantity_usd : Q) (maker_taker_proportion : gmap string pyval) (m t : Q) :
  as_num (dict_get maker_taker_proportion "maker" (VNum 0)) = Ok m ->
  as_num (dict_get maker_taker_proportion "taker" (VNum 1)) = Ok t ->
  0 <= m -> 0 <= t -> 0 < m + t -> 0 <= quantity_usd ->
  exists r,
    fee_model.calculate_fees (VStr exchange) (VStr fee_tier) order_type
      (VNum quantity_usd) (Some maker_taker_proportion) = Ok r /\
    0 <= fee_model.maker_fee_rate r /\
    fee_model.maker_fee_rate r <= fee_model.taker_fee_rate r /\
    quantity_usd * fee_model.maker_fee_rate r <= fee_model.total_fee_usd r /\
    fee_model.total_fee_usd r <= quantity_usd * fee_model.taker_fee_rate r.
Proof.
  intros Hmaker Htaker Hm Ht Hsum Hq. rewrite calculate_fees_rates.
  unfold fee_model.proportions. unfold_bind. rewrite Hmaker, Htaker. simpl.
  assert (Hg : Qgtb (m + t) 0 = true) by (apply Qgtb_true; exact Hsum).
  rewrite Hg. simpl.
  destruct (rates_ordered fee_tier) as [Hmr Hle].
  set (mr := fee_model.maker (effective_rates fee_tier)) in *.
  set (tr := fee_model.taker (effective_rates fee_tier)) in *.
  eexists. split; [reflexivity|]. simpl.
  split; [exact Hmr|]. split; [exact Hle|].
  set (a := m / (m + t)). set (b := t / (m + t)).
  assert (Ha : 0 <= a) by (unfold a; apply Qle_shift_div_l; lra).
  assert (Hb : 0 <= b) by (unfold b; apply Qle_shift_div_l; lra).
  assert (Hab : a + b == 1) by (unfold a, b; field; lra).
  assert (Hqa : 0 <= quantity_usd * a) by nra.
  assert (Hqb : 0 <= quantity_usd * b) by nra.
  assert (Hqab : quantity_usd * a + quantity_usd * b == quantity_usd) by nra.
  split; nra.
Qed.

Lemma X13_fee_between_maker_and_taker_witness :
  exists r,
    fee_model.calculate_fees (VStr "OKX") (VStr "Tier 3") (VStr "limit")
      (VNum 10000) (Some split_70_30) = Ok r /\
    0 <= fee_model.maker_fee_rate r /\
    fee_model.maker_fee_rate r <= fee_model.taker_fee_rate r /\
    10000 * fee_model.maker_fee_rate r <= fee_model.total_fee_usd r /\
    fee_model.total_fee_usd r <= 10000 * fee_model.taker_fee_rate r.
Proof.
  apply (X13_fee_between_maker_and_taker "OKX" "Tier 3" (VStr "limit") 10000 split_70_30 7 3).
  - reflexivity.
  - reflexivity.
  - vm_compute. discriminate.
  - vm_compute. discriminate.
  - reflexivity.
  - vm_compute. discriminate.
Defined.

(** ** [maker_taker_model.py] *)

Section MoreModels.
Context `{MathLib}.

Lemma predict_needs_string self features quantity_usd order_type volatility r :
  maker_taker_model.predict self features quantity_usd order_type volatility = Ok r ->
  exists s, order_type = VStr s.
Proof.
  unfold maker_taker_model.predict. unfold_bind. intros Hr.
  destruct order_type as [| | |s|]; try (exists s; reflexivity); exfalso; simpl in Hr;
    destruct (as_num (dict_get features "bid_depth_5pct" (VNum 1))); try discriminate;
    destruct (as_num (dict_get features "ask_depth_5pct" (VNum 1))); try discriminate;
    destruct (if Qgtb _ 0 then _ else _); discriminate.
Qed.




End MoreModels.




(** ** [slippage_model.py] *)

Lemma py_min_mono (a b c : Q) : a <= b -> py_min a c <= py_min b c.
Proof.
  intros Hab. rewrite !py_min_spec. apply Q.min_le_compat_r. exact Hab.
Qed.

Lemma py_max_zero_mono (a b : Q) : a <= b -> py_max 0 a <= py_max 0 b.
Proof.
  intros Hab. unfold py_max.
  destruct (Qgtb a 0) eqn:Ea, (Qgtb b 0) eqn:Eb;
    try apply Qgtb_true in Ea; try apply Qgtb_true in Eb;
    try apply Qgtb_false in Ea; try apply Qgtb_false in Eb; lra.
Qed.

Lemma slippage_formula_mono (a c b d x1 x2 q1 q2 : Q) :
  0 <= c -> x1 <= x2 -> 0 <= q1 -> q1 <= q2 ->
  py_max 0 (a + c * py_min x1 1 + b + d) <= py_max 0 (a + c * py_min x2 1 + b + d) /\
  q1 * py_max 0 (a + c * py_min x1 1 + b + d) / 100
  <= q2 * py_max 0 (a + c * py_min x2 1 + b + d) / 100.
Proof.
  intros Hc Hx Hq1 Hq.
  pose proof (py_min_mono x1 x2 1 Hx) as Hmin.
  assert (Harg : a + c * py_min x1 1 + b + d <= a + c * py_min x2 1 + b + d) by nra.
  pose proof (py_max_zero_mono _ _ Harg) as Hmax.
  pose proof (py_max_ge_l 0 (a + c * py_min x1 1 + b + d)) as Hnn.
  split; [exact Hmax|].
  set (p1 := py_max 0 (a + c * py_min x1 1 + b + d)) in *.
  set (p2 := py_max 0 (a + c * py_min x2 1 + b + d)) in *.
  apply Qmult_le_compat_r; [nra|]. apply Qlt_le_weak. reflexivity.
Qed.

(** Both calls took the error path of [predict_slippage]. *)
Ltac error_path :=
  simpl; do 2 eexists; split; [reflexivity|]; split; [reflexivity|]; simpl; split; lra.

Section Slippage.
Context `{MathLib}.

(** X16.  With the default (unfitted) regression and a non-negative
    coefficient of the order-size-to-depth ratio, a larger order never has
    a smaller predicted slippage: for [0 <= q1 <= q2] both the slippage
    percentage and the slippage in USD of [q1] are at most those of [q2],
    on the regular path and on the error path alike. *)
Theorem X16_slippage_grows_with_quantity (self : slippage_model.SlippageModel)
  (order_book_features : gmap string pyval) (q1 q2 : Q) (is_buy : bool) (volatility : pyval) :
  slippage_model.fitted self = None ->
  0 <= slippage_model.c_order_size_to_depth_ratio (slippage_model.default_coefficients self) ->
  0 <= q1 -> q1 <= q2 ->
  exists r1 r2,
    slippage_model.predict_slippage self order_book_features (VNum q1) is_buy volatility
    = Ok r1 /\
    slippage_model.predict_slippage self order_book_features (VNum q2) is_buy volatility
    = Ok r2 /\
    slippage_model.slippage_percentage r1 <= slippage_model.slippage_percentage r2 /\
    slippage_model.slippage_usd r1 <= slippage_model.slippage_usd r2.
Proof.
  intros Hfit Hc Hq1 Hq.
  unfold slippage_model.predict_slippage, slippage_model.predict. unfold_bind.
  rewrite Hfit.
  set (sp := as_num (dict_get order_book_features "spread_percentage" (VNum (1 # 100)))).
  set (vol := as_num volatility).
  destruct is_buy.
  - cbn [fst snd as_num].
    destruct (as_num (dict_get order_book_features "ask_depth_5pct" (VNum 1)))
      as [depth|e]; [|error_path].
    destruct (Qgtb depth 0) eqn:Hpos; cbn [as_num];
      (destruct sp as [s|e]; [|error_path]);
      (destruct (as_num (dict_get order_book_features "volume_imbalance" (VNum 0)))
         as [vi|e']; [|error_path]);
      (destruct vol as [v|e'']; [|error_path]);
      do 2 eexists; (split; [reflexivity|]); (split; [reflexivity|]);
      cbn [slippage_model.slippage_percentage slippage_model.slippage_usd];
      apply slippage_formula_mono; try assumption; try lra.
    apply Qgtb_true in Hpos. apply Qmult_le_compat_r; [exact Hq|].
    apply Qlt_le_weak, Qinv_lt_0_compat. exact Hpos.
  - destruct (as_num (dict_get order_book_features "volume_imbalance" (VNum 0)))
      as [vi|e']; [|error_path].
    cbn [fst snd as_num].
    destruct (as_num (dict_get order_book_features "bid_depth_5pct" (VNum 1)))
      as [depth|e]; [|error_path].
    destruct (Qgtb depth 0) eqn:Hpos; cbn [as_num];
      (destruct sp as [s|e]; [|error_path]);
      (destruct vol as [v|e'']; [|error_path]);
      do 2 eexists; (split; [reflexivity|]); (split; [reflexivity|]);
      cbn [slippage_model.slippage_percentage slippage_model.slippage_usd];
      apply slippage_formula_mono; try assumption; try lra.
    apply Qgtb_true in Hpos. apply Qmult_le_compat_r; [exact Hq|].
    apply Qlt_le_weak, Qinv_lt_0_compat. exact Hpos.
Qed.

End Slippage.
Lemma X16_slippage_grows_with_quantity_witness :
  exists r1 r2,
    slippage_model.predict_slippage (H := rational_math) slippage_model.init
      favourable_features (VNum (1 # 2)) true (VNum (2 # 100)) = Ok r1 /\
    slippage_model.predict_slippage (H := rational_math) slippage_model.init
      favourable_features (VNum 1000) true (VNum (2 # 100)) = Ok r2 /\
    slippage_model.slippage_percentage r1 <= slippage_model.slippage_percentage r2 /\
    slippage_model.slippage_usd r1 <= slippage_model.slippage_usd r2.
Proof.
  apply (X16_slippage_grows_with_quantity (H := rational_math) slippage_model.init
           favourable_features (1 # 2) 1000 true (VNum (2 # 100))).
  - reflexivity.
  - vm_compute. discriminate.
  - vm_compute. discriminate.
  - vm_compute. discriminate.
Defined.

(** ** [market_impact_model.py] *)


Section Impact.
Context `{MathLib}.





End Impact.


Lemma calibrate_positive self eta gamma quantity_scaling :
  0 < market_impact_model.eta self -> 0 < market_impact_model.gamma self ->
  0 < market_impact_model.quantity_scaling self ->
  let self' := market_impact_model.calibrate self eta gamma quantity_scaling in
  0 < market_impact_model.eta self' /\ 0 < market_impact_model.gamma self' /\
  0 < market_impact_model.quantity_scaling self' /\
  market_impact_model.default_time_horizon self'
  = market_impact_model.default_time_horizon self.
Proof.
  intros He Hg Hs. unfold market_impact_model.calibrate. simpl.
  assert (Hpick : forall (given : option Q) (current : Q), 0 < current ->
            0 < match given with
                | Some value => if Qgtb value 0 then value else current
                | None => current
                end).
  { intros [value|] current Hc; [|exact Hc].
    destruct (Qgtb value 0) eqn:E; [apply Qgtb_true in E; exact E|exact Hc]. }
  repeat split; try apply Hpick; assumption.
Qed.

(** X18.  Whatever arguments [calibrate] is called with, and however often,
    the parameters of a model stay positive and its default time horizon
    stays 1: a value that is missing, zero or negative is ignored. *)
Theorem X18_calibrate_keeps_parameters_positive
  (calls : list (option Q * option Q * option Q)) :
  0 < market_impact_model.eta (calibrated calls) /\
  0 < market_impact_model.gamma (calibrated calls) /\
  0 < market_impact_model.quantity_scaling (calibrated calls) /\
  market_impact_model.default_time_horizon (calibrated calls) = 1.
Proof.
  unfold calibrated.
  induction calls as [|call calls IH] using rev_ind.
  - simpl. repeat split; reflexivity.
  - rewrite foldl_app. simpl. destruct IH as (He & Hg & Hs & Ht).
    destruct (calibrate_positive _ call.1.1 call.1.2 call.2 He Hg Hs)
      as (He' & Hg' & Hs' & Ht').
    split; [exact He'|]. split; [exact Hg'|]. split; [exact Hs'|].
    exact Ht.
Qed.

Section ImpactSign.
Context `{MathLib}.

(** X19.  With non-negative impact factors, a square root that is never
    negative, a non-negative volatility and a non-negative order size, all
    three impact amounts are non-negative, and the total is the sum of the
    temporary and the permanent impact, whatever the mid price argument
    is. *)
Theorem X19_impact_nonnegative (self : market_impact_model.AlmgrenChrissModel)
  (quantity_usd volatility : Q) (mid_price : pyval) (time_horizon : option Q) :
  (forall x, 0 <= math_sqrt x) ->
  0 <= market_impact_model.eta self -> 0 <= market_impact_model.gamma self ->
  0 <= volatility -> 0 <= quantity_usd ->
  exists r,
    market_impact_model.calculate_market_impact self (VNum quantity_usd) (VNum volatility)
      mid_price time_horizon = Ok r /\
      0 <= market_impact_model.temporary_impact_usd r /\
      0 <= market_impact_model.permanent_impact_usd r /\
      market_impact_model.total_impact_usd r
    == market_impact_model.temporary_impact_usd r + market_impact_model.permanent_impact_usd r.
Proof.
  intros Hsqrt Heta Hgamma Hvol Hq.
  unfold market_impact_model.calculate_market_impact, market_impact_model.compute.
  unfold_bind. cbn [as_num].
  set (T := match time_horizon with
            | Some t => if Qle_bool t 0 then market_impact_model.default_time_horizon self else t
            | None => market_impact_model.default_time_horizon self
            end).
  pose proof (Hsqrt (T / (252 * 24 * 60 * 60))) as Hs1.
  pose proof (Hsqrt (1 / T)) as Hs2.
  set (s1 := math_sqrt (T / (252 * 24 * 60 * 60))) in *.
  set (s2 := math_sqrt (1 / T)) in *.
  assert (Hvs : 0 <= volatility * s1) by (apply Qmult_le_0_compat; assumption).
  assert (Hprod : forall a : Q, 0 <= a ->
            0 <= volatility * s1 * a * s2 * market_impact_model.eta self /\
            0 <= market_impact_model.gamma self * (volatility * s1) * a).
  { intros a Ha. split.
    - repeat apply Qmult_le_0_compat; assumption.
    - repeat apply Qmult_le_0_compat; assumption. }
  destruct (match mid_price with VNone => Ok None | _ => _ end) as [[m|]|e] eqn:Hmid.
  - assert (Hm : 0 < m).
    { destruct mid_price; simpl in Hmid; try discriminate;
        match type of Hmid with context [Qgtb ?x 0] =>
          destruct (Qgtb x 0) eqn:E; inversion Hmid; subst; apply Qgtb_true in E; exact E
        end. }
    eexists. split; [reflexivity|].
    cbn [market_impact_model.temporary_impact_usd market_impact_model.permanent_impact_usd
         market_impact_model.total_impact_usd].
    destruct (Hprod (Qabs (quantity_usd / m)) (Qabs_nonneg _)) as [H1 H2].
    split; [apply Qmult_le_0_compat; [exact H1|lra]|].
    split; [apply Qmult_le_0_compat; [exact H2|lra]|]. reflexivity.
  - eexists. split; [reflexivity|].
    cbn [market_impact_model.temporary_impact_usd market_impact_model.permanent_impact_usd
         market_impact_model.total_impact_usd].
    destruct (Hprod (Qabs (quantity_usd * market_impact_model.quantity_scaling self))
                (Qabs_nonneg _)) as [H1 H2].
    split; [exact H1|]. split; [exact H2|]. reflexivity.
  - eexists. split; [reflexivity|].
    cbn [market_impact_model.temporary_impact_usd market_impact_model.permanent_impact_usd
         market_impact_model.total_impact_usd].
    split; [lra|]. split; [lra|]. ring.
Qed.

End ImpactSign.

Lemma newton_sqrt_nonneg (x : Q) : 0 <= newton_sqrt x.
Proof.
  unfold newton_sqrt. destruct (Qle_bool x 0) eqn:E; [lra|].
  apply Qle_bool_false in E.
  assert (Hstep : forall n, 0 < Nat.iter n (fun y => Qred ((y + x / y) / 2)) 1).
  { induction n as [|n IH]; simpl; [reflexivity|].
    rewrite Qred_correct. apply Qlt_shift_div_l; [reflexivity|].
    assert (0 < x / Nat.iter n (fun y => Qred ((y + x / y) / 2)) 1)
      by (apply Qlt_shift_div_l; lra).
    lra. }
  apply Qlt_le_weak. apply Hstep.
Qed.

Lemma X19_impact_nonnegative_witness :
  exists r,
    market_impact_model.calculate_market_impact (H := rational_math)
      market_impact_model.init (VNum 100) (VNum (2 # 100)) (VNum 50000) None = Ok r /\
    0 <= market_impact_model.temporary_impact_usd r /\
    0 <= market_impact_model.permanent_impact_usd r /\
    market_impact_model.total_impact_usd r
    == market_impact_model.temporary_impact_usd r + market_impact_model.permanent_impact_usd r.
Proof.
  apply (X19_impact_nonnegative (H := rational_math) market_impact_model.init 100 (2 # 100)
           (VNum 50000) None).
  - exact newton_sqrt_nonneg.
  - vm_compute. discriminate.
  - vm_compute. discriminate.
  - vm_compute. discriminate.
  - vm_compute. discriminate.
Defined.

(** ** [simulation_engine.py]: what a tick's outputs depend on *)





Section EngineOutputs.
Context `{FloatParser} `{MathLib}.







End EngineOutputs.


(** ** [simulation_engine.py]: counters and performance metrics *)

Section Bookkeeping.
Context `{FloatParser} `{MathLib}.

(** X21.  Every call of [process_tick] counts one tick and stamps the tick
    time, but only a successful call records a latency: on success the
    measured latency is appended to [processing_times] and reported
    together with the new tick count and the average over the recorded
    latencies; on an error output [processing_times] is left as it was. *)
Theorem X21_tick_bookkeeping (clk : simulation_engine.clock)
  (self : simulation_engine.SimulationEngine) (tick_data : gmap string pyval) :
  callback_ok self ->
  let r := simulation_engine.process_tick clk self tick_data in
  simulation_engine.tick_count r.1 = S (simulation_engine.tick_count self) /\
  simulation_engine.last_tick_time r.1 = Some (simulation_engine.time_tick clk) /\
  match r.2 with
  | Ok (simulation_engine.Success o) =>
      simulation_engine.processing_times r.1
      = (simulation_engine.processing_times self
           ++ [(simulation_engine.perf_end clk - simulation_engine.perf_start clk) * 1000])%list /\
      simulation_engine.internalLatencyMs o
      = (simulation_engine.perf_end clk - simulation_engine.perf_start clk) * 1000 /\
      simulation_engine.tickCount (simulation_engine.perf o)
      = S (simulation_engine.tick_count self) /\
      simulation_engine.averageLatencyMs (simulation_engine.perf o)
      = simulation_engine.sum_list (simulation_engine.processing_times r.1)
        / inject_Z (Z.of_nat (List.length (simulation_engine.processing_times r.1)))
  | Ok (simulation_engine.Error sid _ _) =>
      simulation_engine.processing_times r.1 = simulation_engine.processing_times self /\
      sid = simulation_engine.simulation_id self
  | Raise _ => False
  end.
Proof.
  intros Hcb. cbv zeta.
  assert (Hcall : forall self' out,
             simulation_engine.output_callback self' = simulation_engine.output_callback self ->
             simulation_engine.call_callback self' out = Ok tt).
  { intros self' out Hsame. unfold simulation_engine.call_callback. rewrite Hsame.
    destruct (simulation_engine.output_callback self) as [cb|] eqn:Hc; [|reflexivity].
    apply (Hcb cb _ Hc). }
  unfold simulation_engine.process_tick, simulation_engine.try_block.
  destruct (order_book.update _ _ _) as [ob [ts|e]]; cbv beta iota zeta.
  - rewrite run_models_begin_tick.
    destruct (simulation_engine.run_models self _) as [[[[mt fee] slip] imp]|e].
    + rewrite Hcall by reflexivity. simpl. repeat split.
    + rewrite Hcall by reflexivity. simpl. repeat split.
  - rewrite Hcall by reflexivity. simpl. repeat split.
Qed.

End Bookkeeping.

Lemma X21_tick_bookkeeping_witness :
  let r := simulation_engine.process_tick (H := decimal_parser) (H0 := rational_math) clock0
             (simulation_engine.init "sim" ∅ None) malformed_tick in
  simulation_engine.tick_count r.1 = 1%nat /\
  simulation_engine.last_tick_time r.1 = Some 0 /\
  match r.2 with
  | Ok (simulation_engine.Success o) =>
      simulation_engine.processing_times r.1 = ([] ++ [(0 - 0) * 1000])%list /\
      simulation_engine.internalLatencyMs o = (0 - 0) * 1000 /\
      simulation_engine.tickCount (simulation_engine.perf o) = 1%nat /\
      simulation_engine.averageLatencyMs (simulation_engine.perf o)
      = simulation_engine.sum_list (simulation_engine.processing_times r.1)
        / inject_Z (Z.of_nat (List.length (simulation_engine.processing_times r.1)))
  | Ok (simulation_engine.Error sid _ _) =>
      simulation_engine.processing_times r.1 = [] /\ sid = "sim"
  | Raise _ => False
  end.
Proof.
  apply (X21_tick_bookkeeping (H := decimal_parser) (H0 := rational_math) clock0
           (simulation_engine.init "sim" ∅ None) malformed_tick).
  intros cb o Hc. discriminate Hc.
Defined.

(** *** Latency statistics *)
















(** ** [connector.py]: subscriptions *)

Lemma list_remove_subseteq x y l : y ∈ connector.list_remove x l -> y ∈ l.
Proof.
  induction l as [|z l IH]; simpl; [intros Hin; exact Hin|].
  destruct (bool_decide (x = z)).
  - intros Hin. right. exact Hin.
  - intros Hin. apply elem_of_cons in Hin as [->|Hin]; [left|right; apply IH, Hin].
Qed.

Lemma list_remove_NoDup x l :
  NoDup l -> NoDup (connector.list_remove x l) /\ x ∉ connector.list_remove x l.
Proof.
  induction 1 as [|z l Hz Hl IH]; simpl.
  - split; [constructor|apply not_elem_of_nil].
  - destruct (bool_decide (x = z)) eqn:E.
    + apply bool_decide_eq_true in E. subst z. split; assumption.
    + apply bool_decide_eq_false in E. destruct IH as [IH1 IH2]. split.
      * constructor; [|exact IH1]. intros Hin. apply Hz. eapply list_remove_subseteq, Hin.
      * intros Hin. apply elem_of_cons in Hin as [Heq|Hin]; [congruence|contradiction].
Qed.

(** X23.  [subscribe] and [unsubscribe] keep the list of subscriptions free
    of duplicates, and their result tells where the subscription stands:
    [subscribe] returns [True] exactly when the subscription is in the list
    afterwards, [unsubscribe] exactly when it is not.  Without an open
    websocket neither changes the list (a subscription that is already
    listed is still reported as successful). *)
Theorem X23_subscriptions_stay_distinct (self : connector.WebSocketConnector)
  (channel instrument_id : string) (delivered : bool) :
  NoDup (connector.subscriptions self) ->
  let s := connector.subscribe self channel instrument_id delivered in
  let u := connector.unsubscribe self channel instrument_id delivered in
  NoDup (connector.subscriptions s.1) /\
  (s.2 = true <-> (channel, instrument_id) ∈ connector.subscriptions s.1) /\
  NoDup (connector.subscriptions u.1) /\
  (u.2 = true <-> (channel, instrument_id) ∉ connector.subscriptions u.1) /\
  (connector.websocket self <> Some true ->
   connector.subscriptions s.1 = connector.subscriptions self /\
   connector.subscriptions u.1 = connector.subscriptions self).
Proof.
  intros Hnd. cbv zeta. unfold connector.subscribe, connector.unsubscribe.
  destruct (bool_decide ((channel, instrument_id) ∈ connector.subscriptions self)) eqn:Hin.
  - apply bool_decide_eq_true in Hin. cbn [negb].
    split; [exact Hnd|]. split; [split; [intros _; exact Hin|reflexivity]|].
    destruct (connector.send self delivered) eqn:Hsend; cbn [fst snd connector.subscriptions
                                                              connector.set_subscriptions].
    + destruct (list_remove_NoDup (channel, instrument_id) _ Hnd) as [Hnd' Hout].
      split; [exact Hnd'|]. split; [split; [intros _; exact Hout|reflexivity]|].
      intros Hclosed. unfold connector.send in Hsend.
      destruct (connector.websocket self) as [[|]|]; congruence.
    + split; [exact Hnd|]. split; [split; [discriminate|contradiction]|].
      intros _. split; reflexivity.
  - apply bool_decide_eq_false in Hin. cbn [negb].
    destruct (connector.send self delivered) eqn:Hsend; cbn [fst snd connector.subscriptions
                                                              connector.set_subscriptions].
    + split.
      { apply NoDup_app. split; [exact Hnd|]. split; [|apply NoDup_singleton].
        intros x Hx Hx'. apply list_elem_of_singleton in Hx'. subst x. contradiction. }
      split.
      { split; [intros _|reflexivity]. apply elem_of_app. right. left. }
      split; [exact Hnd|]. split; [split; [intros _; exact Hin|reflexivity]|].
      intros Hclosed. unfold connector.send in Hsend.
      destruct (connector.websocket self) as [[|]|]; congruence.
    + split; [exact Hnd|]. split; [split; [discriminate|contradiction]|].
      split; [exact Hnd|]. split; [split; [intros _; exact Hin|reflexivity]|].
      intros _. split; reflexivity.
Qed.

Lemma X23_subscriptions_stay_distinct_witness :
  let self := connector.set_connection connector.started (Some true) 0 true in
  let s := connector.subscribe self "books" "BTC-USDT-SWAP" true in
  let u := connector.unsubscribe self "books" "BTC-USDT-SWAP" true in
  NoDup (connector.subscriptions s.1) /\
  (s.2 = true <-> ("books", "BTC-USDT-SWAP") ∈ connector.subscriptions s.1) /\
  NoDup (connector.subscriptions u.1) /\
  (u.2 = true <-> ("books", "BTC-USDT-SWAP") ∉ connector.subscriptions u.1) /\
  (connector.websocket self <> Some true ->
   connector.subscriptions s.1 = connector.subscriptions self /\
   connector.subscriptions u.1 = connector.subscriptions self).
Proof.
  apply (X23_subscriptions_stay_distinct
           (connector.set_connection connector.started (Some true) 0 true)
           "books" "BTC-USDT-SWAP" true).
  simpl. constructor.
Defined.

Lemma chunks_concat {A : Type} (step : nat) (l : list A) (m : nat) :
  List.concat ((fun k => take step (drop (k * step) l)) <$> seq 0 m) = take (m * step) l.
Proof.
  induction m as [|m IH]; [reflexivity|].
  rewrite seq_S, fmap_app, concat_app, IH. simpl.
  rewrite app_nil_r, take_take_drop. f_equal. lia.
Qed.

(** X24.  [_resubscribe] sends every subscription exactly once and in
    order: the batches it hands to [send], concatenated, are the list of
    subscriptions; each batch holds between one and ten of them, and there
    are [ceil(len / 10)] batches. *)
Theorem X24_resubscribe_batches (self : connector.WebSocketConnector) :
  List.concat (connector._resubscribe self) = connector.subscriptions self /\
  Forall (fun batch => (1 <= List.length batch <= 10)%nat) (connector._resubscribe self) /\
  List.length (connector._resubscribe self)
  = ((List.length (connector.subscriptions self) + 9) / 10)%nat.
Proof.
  unfold connector._resubscribe.
  destruct (connector.subscriptions self) as [|sub subs] eqn:Hsubs;
    [repeat split; constructor|].
  set (l := sub :: subs). unfold connector.range_step.
  rewrite <- list_fmap_compose. unfold compose.
  set (m := ((List.length l + 10 - 1) / 10)%nat).
  assert (Hm : (List.length l <= m * 10 /\ (m - 1) * 10 < List.length l)%nat).
  { unfold m. assert (0 < List.length l)%nat by (unfold l; simpl; lia).
    pose proof (Nat.div_mod_eq (List.length l + 10 - 1) 10).
    pose proof (Nat.mod_upper_bound (List.length l + 10 - 1) 10). lia. }
  split; [|split].
  - rewrite (chunks_concat 10 l m). apply take_ge. lia.
  - apply Forall_fmap. apply Forall_forall. intros k Hk.
    apply elem_of_seq in Hk. simpl. rewrite length_take, length_drop. lia.
  - rewrite length_fmap, length_seq. unfold m. f_equal. lia.
Qed.

(** ** [connector.py]: a connection that keeps dropping *)

Lemma connect_count_cons_connect acts :
  connect_count (connector.Connect :: acts) = S (connect_count acts).
Proof. reflexivity. Qed.

Lemma connection_lost_iteration self :
  connector.should_run self = true ->
  (1 <= connector.max_reconnect_attempts self)%nat ->
  exists self' acts,
    connector.iteration self (connector.mkEvent connector.ConnectionLost false)
    = (self', connector.Connect :: acts, true) /\
    connector.should_run self' = true /\
    connector.max_reconnect_attempts self' = connector.max_reconnect_attempts self /\
    connector.reconnect_attempts self' = 1%nat /\
    connector.websocket self' = None /\
    connect_count acts = 0%nat /\
    connector.GiveUp ∉ acts.
Proof.
  intros Hrun Hmax. unfold connector.iteration, connector.on_connected,
    connector.on_exception, connector.request_stop. simpl.
  rewrite Hrun. simpl.
  destruct (Nat.ltb_spec (connector.max_reconnect_attempts self) 1) as [Hlt|Hge]; [lia|].
  eexists _, _. split; [reflexivity|]. simpl.
  repeat split; try reflexivity.
  - destruct (connector.subscriptions self); reflexivity.
  - destruct (connector.subscriptions self); simpl; intros Hin;
      repeat (apply elem_of_cons in Hin as [Hin|Hin]; [discriminate Hin|]);
      apply elem_of_nil in Hin; exact Hin.
Qed.

Lemma connect_count_app acts1 acts2 :
  connect_count (acts1 ++ acts2) = (connect_count acts1 + connect_count acts2)%nat.
Proof.
  unfold connect_count. rewrite List.filter_app, length_app. reflexivity.
Qed.

(** X25.  A connection that is established and then lost, again and again,
    never makes the loop give up: every successful connect resets the
    attempt count, so after any number of such rounds the loop is still
    running, has made one connection attempt per round, and stands at
    attempt count 1.  (Only consecutive failures to connect add up.) *)
Theorem X25_dropping_connection_never_gives_up (self : connector.WebSocketConnector)
  (n : nat) :
  connector.should_run self = true ->
  (1 <= connector.max_reconnect_attempts self)%nat ->
  let r := connector._maintain_connection self
             (replicate n (connector.mkEvent connector.ConnectionLost false)) in
  r.2 = false /\
  connect_count r.1.2 = n /\
  (connector.GiveUp ∉ r.1.2) /\
  connector.should_run r.1.1 = true /\
  ((0 < n)%nat ->
   connector.reconnect_attempts r.1.1 = 1%nat /\ connector.websocket r.1.1 = None).
Proof.
  revert self. induction n as [|n IH]; intros self Hrun Hmax; cbv zeta.
  - simpl. rewrite Hrun. simpl.
    split; [reflexivity|]. split; [reflexivity|]. split; [apply not_elem_of_nil|].
    split; [exact Hrun|]. intros Hn. lia.
  - cbn [replicate connector._maintain_connection]. rewrite Hrun. cbn [negb].
    destruct (connection_lost_iteration self Hrun Hmax)
      as (self' & acts & Hiter & Hrun' & Hmax' & Hatt & Hws & Hcount & Hgive).
    rewrite Hiter.
    specialize (IH self' Hrun' ltac:(lia)). cbv zeta in IH.
    destruct (connector._maintain_connection self'
                (replicate n (connector.mkEvent connector.ConnectionLost false)))
      as [[self'' acts'] exited] eqn:Hrest.
    cbn [fst snd] in IH |- *. destruct IH as (Hexit & Hn & Hgive' & Hrun'' & Hlast).
    split; [exact Hexit|].
    split.
    { rewrite <- app_comm_cons, connect_count_cons_connect, connect_count_app, Hcount, Hn.
      reflexivity. }
    split.
    { intros Hin. apply elem_of_cons in Hin as [Hin|Hin]; [discriminate Hin|].
      apply elem_of_app in Hin as [Hin|Hin]; contradiction. }
    split; [exact Hrun''|].
    intros _. destruct n as [|n].
    + simpl in Hrest. rewrite Hrun' in Hrest. simpl in Hrest.
      inversion Hrest; subst. split; assumption.
    + apply Hlast. lia.
Qed.

Lemma X25_dropping_connection_never_gives_up_witness :
  let r := connector._maintain_connection connector.started
             (replicate 20 (connector.mkEvent connector.ConnectionLost false)) in
  r.2 = false /\
  connect_count r.1.2 = 20%nat /\
  (connector.GiveUp ∉ r.1.2) /\
  connector.should_run r.1.1 = true /\
  ((0 < 20)%nat ->
   connector.reconnect_attempts r.1.1 = 1%nat /\ connector.websocket r.1.1 = None).
Proof.
  apply (X25_dropping_connection_never_gives_up connector.started 20).
  - reflexivity.
  - simpl. lia.
Defined.

(** ** [simulation_engine.py]: an order type that is not a string *)

Section OrderType.
Context `{FloatParser} `{MathLib}.

Lemma predict_proportion_raises self features quantity_usd order_type volatility :
  (forall s, order_type <> VStr s) ->
  maker_taker_model.predict_proportion self features quantity_usd order_type volatility
  = Raise AttributeError.
Proof.
  intros Hns. unfold maker_taker_model.predict_proportion.
  destruct (maker_taker_model.predict self features quantity_usd order_type volatility)
    as [r|e] eqn:Hp.
  - destruct (predict_needs_string _ _ _ _ _ _ Hp) as [s ->]. exfalso. exact (Hns s eq_refl).
  - destruct order_type as [| | |s|]; try reflexivity. exfalso. exact (Hns s eq_refl).
Qed.

(** X26.  An engine whose 'orderType' parameter is not a string never
    produces a cost output: the error handler of the maker/taker model
    evaluates [order_type.lower()] again, so the exception leaves the
    model, and every tick ends in the error output of [process_tick]. *)
Theorem X26_order_type_not_a_string (clk : simulation_engine.clock)
  (self : simulation_engine.SimulationEngine) (tick_data : gmap string pyval) :
  (forall s, dict_get (simulation_engine.parameters self) "orderType" (VStr "market")
             <> VStr s) ->
  callback_ok self ->
  exists e,
    (simulation_engine.process_tick clk self tick_data).2
    = Ok (simulation_engine.Error (simulation_engine.simulation_id self)
            (dict_get tick_data "timestamp" VNone) e).
Proof.
  intros Hns Hcb.
  assert (Hcall : forall self' out,
             simulation_engine.output_callback self' = simulation_engine.output_callback self ->
             simulation_engine.call_callback self' out = Ok tt).
  { intros self' out Hsame. unfold simulation_engine.call_callback. rewrite Hsame.
    destruct (simulation_engine.output_callback self) as [cb|] eqn:Hc; [|reflexivity].
    apply (Hcb cb _ Hc). }
  unfold simulation_engine.process_tick, simulation_engine.try_block.
  destruct (order_book.update _ _ _) as [ob [ts|e]]; cbv beta iota zeta.
  - rewrite run_models_begin_tick. unfold simulation_engine.run_models.
    rewrite (predict_proportion_raises _ _ _ _ _ Hns). unfold_bind.
    rewrite Hcall by reflexivity. eexists. reflexivity.
  - rewrite Hcall by reflexivity. eexists. reflexivity.
Qed.

End OrderType.

Lemma X26_order_type_not_a_string_witness :
  exists e,
    (simulation_engine.process_tick (H := decimal_parser) (H0 := rational_math) clock0
       (simulation_engine.init "sim" (<[ "orderType" := VNum 1 ]> ∅) None)
       (snapshot [token_pair "99" "1"] [token_pair "101" "2"])).2
    = Ok (simulation_engine.Error "sim"
            (dict_get (snapshot [token_pair "99" "1"] [token_pair "101" "2"])
               "timestamp" VNone) e).
Proof.
  apply (X26_order_type_not_a_string (H := decimal_parser) (H0 := rational_math) clock0
           (simulation_engine.init "sim" (<[ "orderType" := VNum 1 ]> ∅) None)
           (snapshot [token_pair "99" "1"] [token_pair "101" "2"])).
  - intros s Hs. vm_compute in Hs. discriminate Hs.
  - intros cb o Hc. discriminate Hc.
Defined.

(** ** [order_book.py]: an update that fails *)

Section FailedUpdate.
Context `{FloatParser}.







End FailedUpdate.

